(** * cesium-measure: distance and area measurement sessions

    A shallow embedding of the measurement classes of the package
    ([Measure], [AreaMeasure], [AreaSurfaceMeasure], [DistanceMeasure],
    [DistanceSurfaceMeasure]) and the properties of its specification.

    JavaScript numbers are IEEE 754 binary64 values, so they are modelled by
    Rocq's primitive floats, whose operations are the same correctly rounded
    ones.  Methods that can throw return a [completion]; a public
    operation of a session gives an [Outcome], which keeps the session as a
    throw leaves it.  The collaborators the package only calls (the Cesium
    viewer, the drawer, the tooltip, most of turf) are records of functions
    or small state records; turf's [polygon] and [area] and the life of
    Cesium's label collection are written out. *)

From Stdlib Require Import Floats ZArith List Bool String Lia.
Import ListNotations.

Open Scope float_scope.

(** Decimal literals stand for the nearest double, as in JavaScript. *)
#[local] Set Warnings "-inexact-float".

(** ** JavaScript numbers *)

Module JsNumber.

Definition number := float.

Definition Math_sqrt (x : number) : number := PrimFloat.sqrt x.
Definition Math_abs (x : number) : number := PrimFloat.abs x.

(** [Math.pow(x, 2)], the only exponent the package uses: the correctly
    rounded square. *)
Definition Math_pow2 (x : number) : number := x * x.

(** The comma operator [(a, b)] evaluates [a], drops it and yields [b]. *)
Definition comma (a b : number) : number := b.

Definition Math_PI : number := 0x1.921fb54442d18p+1.

(** An integer as a number (exact below 2^53). *)
Definition of_Z (n : Z) : number :=
  SF2Prim (binary_normalize prec emax n 0 false).
Definition of_nat (n : nat) : number := of_Z (Z.of_nat n).

(** [Math.min(...xs)] and [Math.max(...xs)]. *)
Definition min2 (a b : number) : number :=
  if is_nan a || is_nan b then nan
  else if b <? a then b else if a <? b then a
  else if get_sign a then a else b.
Definition max2 (a b : number) : number :=
  if is_nan a || is_nan b then nan
  else if a <? b then b else if b <? a then a
  else if get_sign a then b else a.
Definition Math_min (xs : list number) : number := fold_left min2 xs infinity.
Definition Math_max (xs : list number) : number :=
  fold_left max2 xs neg_infinity.

(** *** [+x.toFixed(2)]

    For a finite [x] below 1e21 in magnitude, [toFixed(2)] prints the
    integer [n] for which [n / 100] is closest to [|x|] (the larger one on
    a tie) with two decimals, behind the sign of [x]; unary plus reads the
    string back as the double nearest to [n / 100].  Other values print
    as themselves and read back unchanged. *)

(** The [n] of [m * 2^e]. *)
Definition hundredths (m : positive) (e : Z) : Z :=
  match e with
  | Z0 => 100 * Zpos m
  | Zpos k => 100 * Zpos m * 2 ^ Zpos k
  | Zneg k => (200 * Zpos m + 2 ^ Zpos k) / 2 ^ (Zpos k + 1)
  end.

(** The double nearest to [n / 100]. *)
Definition parse_hundredths (n : Z) : number :=
  match n with
  | Zpos p =>
      SF2Prim (SFdiv prec emax (S754_finite false p 0)
                                (S754_finite false 100 0))
  | _ => 0
  end.

Definition toFixed2 (x : number) : number :=
  match Prim2SF x with
  | S754_finite s m e =>
      if 1e21 <=? PrimFloat.abs x then x
      else let r := parse_hundredths (hundredths m e) in
           if s then - r else r
  | S754_zero _ => 0
  | _ => x
  end.

(** The numbers on the two-decimal grid. *)
Definition two_decimals (x : number) : Prop :=
  exists n : Z, x = parse_hundredths n \/ x = - parse_hundredths n.

End JsNumber.
Import JsNumber.

(** ** Completions: a method returns normally or throws *)

Inductive completion (A : Type) : Type :=
| Normal (a : A)
| Throw (message : string).
Arguments Normal {A} a.
Arguments Throw {A} message.

Definition bind {A B : Type} (c : completion A) (k : A -> completion B)
  : completion B :=
  match c with
  | Normal a => k a
  | Throw e => Throw e
  end.

Notation "x <- c ;; k" := (bind c (fun x => k))
  (at level 61, c at next level, right associativity).

Definition returns {A : Type} (c : completion A) : Prop :=
  exists a, c = Normal a.
Definition throws {A : Type} (c : completion A) : Prop :=
  exists e, c = Throw e.

(** ** Geometry values of Cesium *)

Module Cartesian2.
Record t : Set := mk { x : number; y : number }.
End Cartesian2.

Module Cartesian3.
Record t : Set := mk { x : number; y : number; z : number }.

(** [Cartesian3.distance]: the magnitude of the difference. *)
Definition subtract (l r : t) : t := mk (x l - x r) (y l - y r) (z l - z r).
Definition magnitudeSquared (c : t) : number :=
  x c * x c + y c * y c + z c * z c.
Definition magnitude (c : t) : number := Math_sqrt (magnitudeSquared c).
Definition distance (l r : t) : number := magnitude (subtract l r).
End Cartesian3.

Module Cartographic.
Record t : Set := mk { longitude : number; latitude : number; height : number }.
End Cartographic.

(** [CesiumMath.toDegrees]. *)
Definition toDegrees (radians : number) : number := radians * (180 / Math_PI).

Definition Units := string.
Definition LonLat : Set := (number * number)%type.

(** ** Collaborators *)

(** What the package reads from the viewer: [scene.pickPosition],
    [SceneTransforms.worldToWindowCoordinates(scene, _)],
    [scene.globe.ellipsoid.cartesianToCartographic] (undefined for a
    position at the centre of the ellipsoid), [isDestroyed()], and whether
    [scene.primitives] destroys a primitive it removes (its
    [destroyPrimitives], true unless the application changes it). *)
Record Viewer : Type := {
  pickPosition : Cartesian2.t -> option Cartesian3.t;
  worldToWindowCoordinates : Cartesian3.t -> Cartesian2.t;
  cartesianToCartographic : Cartesian3.t -> option Cartographic.t;
  isDestroyed : bool;
  destroyPrimitives : bool
}.

(** Library functions the package calls and does not define: Cesium's
    [Cartographic.fromCartesian] and [EllipsoidGeodesic] (end points set,
    [surfaceDistance] read), turf's [convertLength] and [convertArea] (from
    meters), [intersect] of two polygons (the outer ring of the result,
    when there is one), [randomPoint] and [voronoi] over a bounding box,
    the trigonometric functions of [Math], and the printing of a number. *)
Record Lib : Type := {
  Cartographic_fromCartesian : Cartesian3.t -> Cartographic.t;
  EllipsoidGeodesic_surfaceDistance : Cartographic.t -> Cartographic.t -> number;
  convertLength : number -> Units -> number;
  convertArea : number -> Units -> number;
  turf_intersect : list LonLat -> list LonLat -> option (list LonLat);
  turf_randomPoint : nat -> number * number * number * number -> list LonLat;
  turf_voronoi : list LonLat -> number * number * number * number -> list (list LonLat);
  Math_sin : number -> number;
  Math_cos : number -> number;
  Math_atan2 : number -> number -> number;
  Number_toString : number -> string
}.

(** turf's [polygon]: every ring needs four positions or more, and its
    first and last positions must be equal ([!==] on each coordinate). *)
Definition position_equivalent (a b : option LonLat) : bool :=
  match a, b with
  | Some (a0, a1), Some (b0, b1) => (a0 =? b0) && (a1 =? b1)
  | _, _ => false
  end.

Definition ring_ok (ring : list (option LonLat)) : completion (list LonLat) :=
  if (List.length ring <? 4)%nat
  then Throw "Each LinearRing of a Polygon must have 4 or more Positions."
  else if position_equivalent (last ring None) (hd None ring)
       then Normal (flat_map (fun p => match p with Some q => [q] | None => [] end) ring)
       else Throw "First and last Position are not equivalent.".

Fixpoint polygon (coordinates : list (list (option LonLat)))
  : completion (list (list LonLat)) :=
  match coordinates with
  | [] => Normal []
  | ring :: rest =>
      r <- ring_ok ring ;;
      rs <- polygon rest ;;
      Normal (r :: rs)
  end.

(** turf's [area] of a polygon given by its rings, as of @turf/area 6.5
    (the turf whose [intersect] takes two polygons, as the package calls
    it).  [ringArea] walks the coordinates of a ring in their order, the closing
    one included, and adds one term for each: the difference of the
    longitudes of its two neighbours times the sine of its latitude, all in
    radians.  The area of the polygon is the absolute value of the sum of
    its outer ring, less those of its holes. *)
Module TurfArea.

Definition RADIUS : number := 6378137.

Definition rad (num : number) : number := (num * Math_PI) / 180.

(** [lowerIndex], [middleIndex] and [upperIndex] of turn [i]. *)
Definition indices (coordsLength i : nat) : nat * nat * nat :=
  if (i =? coordsLength - 2)%nat
  then (coordsLength - 2, coordsLength - 1, 0)%nat
  else if (i =? coordsLength - 1)%nat
       then (coordsLength - 1, 0, 1)%nat
       else (i, i + 1, i + 2)%nat.

(** The term of turn [i]; the three indices are below [coordsLength]. *)
Definition term (sin : number -> number) (coords : list LonLat) (i : nat)
  : number :=
  let '(lowerIndex, middleIndex, upperIndex) :=
    indices (List.length coords) i in
  let p1 := nth lowerIndex coords (nan, nan) in
  let p2 := nth middleIndex coords (nan, nan) in
  let p3 := nth upperIndex coords (nan, nan) in
  (rad (fst p3) - rad (fst p1)) * sin (rad (snd p2)).

Definition ringArea (sin : number -> number) (coords : list LonLat)
  : number :=
  let coordsLength := List.length coords in
  if (2 <? coordsLength)%nat
  then
    let total :=
      fold_left (fun total i => total + term sin coords i)
                (seq 0 coordsLength) 0 in
    (total * RADIUS * RADIUS) / 2
  else 0.

Definition polygonArea (sin : number -> number)
  (coords : list (list LonLat)) : number :=
  match coords with
  | [] => 0
  | outer :: holes =>
      fold_left (fun total ring => total - Math_abs (ringArea sin ring))
                holes (0 + Math_abs (ringArea sin outer))
  end.

End TurfArea.

(** [area(pg)]: [geomReduce] adds the area of the one geometry to 0. *)
Definition turf_area (lib : Lib) (rings : list (list LonLat)) : number :=
  0 + TurfArea.polygonArea (Math_sin lib) rings.

(** ** Labels, tooltip and drawer *)

Definition Color : Set := (number * number * number * number)%type.
Definition Color_WHITE : Color := (1, 1, 1, 1).
Definition NearFarScalar : Set := (number * number * number * number)%type.

Record LabelStyle : Set := {
  font : string;
  fillColor : Color;
  backgroundColor : Color;
  backgroundPadding : Cartesian2.t;
  outlineWidth : number;
  style : string;
  pixelOffset : Cartesian2.t;
  scale : number;
  scaleByDistance : NearFarScalar;
  heightReference : string
}.

(** [options.labelStyle]: every entry is optional. *)
Record LabelStyleOptions : Set := {
  o_font : option string;
  o_fillColor : option Color;
  o_backgroundColor : option Color;
  o_backgroundPadding : option Cartesian2.t;
  o_outlineWidth : option number;
  o_style : option string;
  o_pixelOffset : option Cartesian2.t;
  o_scale : option number;
  o_scaleByDistance : option NearFarScalar;
  o_heightReference : option string
}.

Definition no_labelStyle : LabelStyleOptions :=
  Build_LabelStyleOptions None None None None None None None None None None.

Definition DefaultOptions_labelStyle : LabelStyle := {|
  font := "bold 20px Arial";
  fillColor := Color_WHITE;
  backgroundColor := (0.165, 0.165, 0.165, 0.8);
  backgroundPadding := Cartesian2.mk 4 4;
  outlineWidth := 4;
  style := "FILL_AND_OUTLINE";
  pixelOffset := Cartesian2.mk 4 0;
  scale := 1;
  scaleByDistance := (1, 0.85, 8e6, 0.75);
  heightReference := "CLAMP_TO_GROUND"
|}.

Definition or_else {A : Type} (o : option A) (d : A) : A :=
  match o with Some a => a | None => d end.

(** [{ ...base, ...o }]. *)
Definition spread_labelStyle (base : LabelStyle) (o : LabelStyleOptions)
  : LabelStyle := {|
  font := or_else (o_font o) (font base);
  fillColor := or_else (o_fillColor o) (fillColor base);
  backgroundColor := or_else (o_backgroundColor o) (backgroundColor base);
  backgroundPadding := or_else (o_backgroundPadding o) (backgroundPadding base);
  outlineWidth := or_else (o_outlineWidth o) (outlineWidth base);
  style := or_else (o_style o) (style base);
  pixelOffset := or_else (o_pixelOffset o) (pixelOffset base);
  scale := or_else (o_scale o) (scale base);
  scaleByDistance := or_else (o_scaleByDistance o) (scaleByDistance base);
  heightReference := or_else (o_heightReference o) (heightReference base)
|}.

(** The text of a label, kept as the values its template is filled with;
    [renderText] below gives the string. *)
Inductive LabelText : Type :=
| NoText
| StartText
| DistanceText (isLast : bool) (distance unitedDistance : number)
               (height unitedZ : number) (increment : option (number * number))
| AreaText (area unitedArea : number).

Record Label : Type := {
  position : Cartesian3.t;
  labelStyle : LabelStyle;
  text : LabelText
}.

Definition set_text (l : Label) (t : LabelText) : Label :=
  {| position := position l; labelStyle := labelStyle l; text := t |}.

Definition set_pixelOffset (s : LabelStyle) (p : Cartesian2.t) : LabelStyle :=
  {| font := font s; fillColor := fillColor s;
     backgroundColor := backgroundColor s;
     backgroundPadding := backgroundPadding s;
     outlineWidth := outlineWidth s; style := style s;
     pixelOffset := p; scale := scale s;
     scaleByDistance := scaleByDistance s;
     heightReference := heightReference s |}.

(** [LabelCollection]: the labels in the order they were added. *)
Definition LabelCollection := list Label.

Record MouseTooltip : Set := {
  tooltip_hidden : bool;
  tooltip_destroyed : bool
}.

Inductive DrawType : Set := POLYGON | POLYLINE | POINT | CIRCLE | RECTANGLE.

(** Graphics options ([style]) and callbacks are passed through untouched:
    they are carried by name. *)
Definition GraphicsOptions : Set := list (string * string).
Definition Callback : Set := string.

(** The argument of [drawer.start]; [onPointsChange] is always the
    session's own [_updateLabelFunc]. *)
Record StartOption : Set := {
  type : DrawType;
  dynamicOptions : GraphicsOptions * option bool;
  finalOptions : GraphicsOptions * option bool;
  onEnd : option Callback
}.

Inductive DrawerCall : Set :=
| DrawerStart (o : StartOption)
| DrawerReset.

(** The drawer: its construction options and the calls it has received,
    the latest first. *)
Record Drawer : Set := {
  sameStyle : bool;
  terrain : bool;
  received : list DrawerCall
}.

Definition Drawer_call (c : DrawerCall) (d : Drawer) : Drawer :=
  {| sameStyle := sameStyle d; terrain := terrain d;
     received := c :: received d |}.

(** ** Locale *)

Module Locale.
Record t : Type := mk {
  area : string;
  start : string;
  total : string;
  formatLength : number -> number -> Units -> string;
  formatArea : number -> number -> Units -> string
}.
End Locale.

Record LocaleOptions : Type := {
  o_area : option string;
  o_start : option string;
  o_total : option string;
  o_formatLength : option (number -> number -> Units -> string);
  o_formatArea : option (number -> number -> Units -> string)
}.

Definition no_locale : LocaleOptions :=
  Build_LocaleOptions None None None None None.

Section Formatting.
Variable lib : Lib.

Definition formatLength (length unitedLength : number) (unit : Units)
  : string :=
  if length <? 1e3 then (Number_toString lib length ++ "meters")%string
  else (Number_toString lib unitedLength ++ unit)%string.

Definition formatArea (area unitedArea : number) (unit : Units) : string :=
  if area <? 1e6 then (Number_toString lib area ++ " square meters ")%string
  else (Number_toString lib unitedArea ++ " square " ++ unit)%string.

Definition newline : string := String (Ascii.ascii_of_nat 10) EmptyString.

Definition renderText (locale : Locale.t) (units : Units) (t : LabelText)
  : option string :=
  match t with
  | NoText => None
  | StartText => Some (Locale.start locale)
  | DistanceText isLast distance unitedDistance height unitedZ increment =>
      Some ((if isLast then Locale.total locale ++ ": " else "D: ")
            ++ Locale.formatLength locale distance unitedDistance units
            ++ newline ++ "(Z: "
            ++ Locale.formatLength locale height unitedZ units ++ ")"
            ++ match increment with
               | Some (newDis, unitedNewDis) =>
                   newline ++ "(+"
                   ++ Locale.formatLength locale newDis unitedNewDis units
                   ++ ")"
               | None => ""
               end)%string
  | AreaText area unitedArea =>
      Some (Locale.area locale ++ ": "
            ++ Locale.formatArea locale area unitedArea units)%string
  end.
End Formatting.

Definition mean (array : list number) : number :=
  fold_left (fun accumulator currentValue => accumulator + currentValue) array 0
  / of_nat (List.length array).

Definition pickCartesian3 (viewer : Viewer) (position : Cartesian2.t)
  : option Cartesian3.t :=
  pickPosition viewer position.

Definition getBounds (points : list Cartesian2.t)
  : number * number * number * number :=
  let left := Math_min (map Cartesian2.x points) in
  let right := Math_max (map Cartesian2.x points) in
  let top := Math_max (map Cartesian2.y points) in
  let bottom := Math_min (map Cartesian2.y points) in
  (left, top, right, bottom).

(** ** The session object *)

Inductive Status : Set := INIT | WORKING | DESTROY.

(** The class of a session object. *)
Inductive Class : Set :=
| BaseMeasure
| AreaMeasure
| AreaSurfaceMeasure
| DistanceMeasure
| DistanceSurfaceMeasure.

Record Measure : Type := {
  class : Class;
  _viewer : Viewer;
  _status : Status;
  _labels : LabelCollection;
  (** [_labels.isDestroyed()] *)
  _labels_isDestroyed : bool;
  _labelStyle : LabelStyle;
  _units : Units;
  _locale : Locale.t;
  mouseTooltip : MouseTooltip;
  drawer : Drawer;
  _onEnd : option Callback;
  (** a count; 0 in the classes that have no such field *)
  _splitNum : nat;
  (** whether [scene.primitives] holds [_labels] *)
  primitives_labels : bool
}.

Definition set_status (s : Status) (m : Measure) : Measure :=
  {| class := class m; _viewer := _viewer m; _status := s;
     _labels := _labels m; _labels_isDestroyed := _labels_isDestroyed m;
     _labelStyle := _labelStyle m; _units := _units m;
     _locale := _locale m; mouseTooltip := mouseTooltip m;
     drawer := drawer m; _onEnd := _onEnd m; _splitNum := _splitNum m;
     primitives_labels := primitives_labels m |}.

Definition set_labels (l : LabelCollection) (m : Measure) : Measure :=
  {| class := class m; _viewer := _viewer m; _status := _status m;
     _labels := l; _labels_isDestroyed := _labels_isDestroyed m;
     _labelStyle := _labelStyle m; _units := _units m;
     _locale := _locale m; mouseTooltip := mouseTooltip m;
     drawer := drawer m; _onEnd := _onEnd m; _splitNum := _splitNum m;
     primitives_labels := primitives_labels m |}.

Definition set_drawer (d : Drawer) (m : Measure) : Measure :=
  {| class := class m; _viewer := _viewer m; _status := _status m;
     _labels := _labels m; _labels_isDestroyed := _labels_isDestroyed m;
     _labelStyle := _labelStyle m; _units := _units m;
     _locale := _locale m; mouseTooltip := mouseTooltip m;
     drawer := d; _onEnd := _onEnd m; _splitNum := _splitNum m;
     primitives_labels := primitives_labels m |}.

Definition set_mouseTooltip (t : MouseTooltip) (m : Measure) : Measure :=
  {| class := class m; _viewer := _viewer m; _status := _status m;
     _labels := _labels m; _labels_isDestroyed := _labels_isDestroyed m;
     _labelStyle := _labelStyle m; _units := _units m;
     _locale := _locale m; mouseTooltip := t;
     drawer := drawer m; _onEnd := _onEnd m; _splitNum := _splitNum m;
     primitives_labels := primitives_labels m |}.

Definition set_primitives_labels (b : bool) (m : Measure) : Measure :=
  {| class := class m; _viewer := _viewer m; _status := _status m;
     _labels := _labels m; _labels_isDestroyed := _labels_isDestroyed m;
     _labelStyle := _labelStyle m; _units := _units m;
     _locale := _locale m; mouseTooltip := mouseTooltip m;
     drawer := drawer m; _onEnd := _onEnd m; _splitNum := _splitNum m;
     primitives_labels := b |}.

Definition set_labels_isDestroyed (b : bool) (m : Measure) : Measure :=
  {| class := class m; _viewer := _viewer m; _status := _status m;
     _labels := _labels m; _labels_isDestroyed := b;
     _labelStyle := _labelStyle m; _units := _units m;
     _locale := _locale m; mouseTooltip := mouseTooltip m;
     drawer := drawer m; _onEnd := _onEnd m; _splitNum := _splitNum m;
     primitives_labels := primitives_labels m |}.

(** *** The label collection

    Cesium's [destroy()] removes the labels of a [LabelCollection] and
    replaces every method of the object by one that throws. *)
Definition destroyed_object : string :=
  "DeveloperError: This object was destroyed, i.e., destroy() was called.".

Definition LabelCollection_removeAll (m : Measure) : completion Measure :=
  if _labels_isDestroyed m then Throw destroyed_object
  else Normal (set_labels [] m).

Definition LabelCollection_add (label : Label) (m : Measure)
  : completion Measure :=
  if _labels_isDestroyed m then Throw destroyed_object
  else Normal (set_labels (_labels m ++ [label]) m).

(** [_labels.get(index)], undefined past the last label. *)
Definition LabelCollection_get (index : nat) (m : Measure)
  : completion (option Label) :=
  if _labels_isDestroyed m then Throw destroyed_object
  else Normal (nth_error (_labels m) index).

Definition LabelCollection_destroy (m : Measure) : completion Measure :=
  if _labels_isDestroyed m then Throw destroyed_object
  else Normal (set_labels_isDestroyed true (set_labels [] m)).

(** *** Calls on a session

    A public operation returns or throws, and leaves the session as it had
    made it by then. *)
Inductive Outcome : Type :=
| Returned (m : Measure)
| Thrown (message : string) (m : Measure).

Definition after (o : Outcome) : Measure :=
  match o with
  | Returned m => m
  | Thrown _ m => m
  end.

(** A call that changes nothing when it throws, made on [m]. *)
Definition step (c : completion Measure) (m : Measure) : Outcome :=
  match c with
  | Normal m' => Returned m'
  | Throw e => Thrown e m
  end.

Definition and_then (o : Outcome) (k : Measure -> Outcome) : Outcome :=
  match o with
  | Returned m => k m
  | Thrown e m => Thrown e m
  end.

Notation "m <~ o ;; k" := (and_then o (fun m => k))
  (at level 61, o at next level, right associativity).

(** [scene.primitives.remove(this._labels)]: a collection that holds the
    labels lets go of them and, with [destroyPrimitives], destroys them. *)
Definition PrimitiveCollection_remove (m : Measure) : Outcome :=
  if primitives_labels m
  then
    let m1 := set_primitives_labels false m in
    if destroyPrimitives (_viewer m)
    then step (LabelCollection_destroy m1) m1
    else Returned m1
  else Returned m.

Record MeasureOptions : Type := {
  options_labelStyle : LabelStyleOptions;
  options_units : option Units;
  options_onEnd : option Callback;
  options_drawerOptions : option bool * option bool;
  options_locale : LocaleOptions;
  options_splitNum : option nat
}.

(** [options = {}]. *)
Definition no_options : MeasureOptions := {|
  options_labelStyle := no_labelStyle;
  options_units := None;
  options_onEnd := None;
  options_drawerOptions := (None, None);
  options_locale := no_locale;
  options_splitNum := None
|}.

(** A loop [for (i = ...; ...; i += 1)] over the indices [idx], whose body
    may throw. *)
Fixpoint for_each {S : Type} (idx : list nat)
  (body : nat -> S -> completion S) (s : S) : completion S :=
  match idx with
  | [] => Normal s
  | i :: rest => s' <- body i s ;; for_each rest body s'
  end.

(** [array.forEach(callback)], whose callback may throw. *)
Fixpoint forEach {A S : Type} (array : list A)
  (callback : A -> S -> completion S) (s : S) : completion S :=
  match array with
  | [] => Normal s
  | a :: rest => s' <- callback a s ;; forEach rest callback s'
  end.

(** [array.map(callback)], whose callback may throw. *)
Fixpoint Array_map {A B : Type} (array : list A)
  (callback : A -> completion B) : completion (list B) :=
  match array with
  | [] => Normal []
  | a :: rest =>
      b <- callback a ;;
      bs <- Array_map rest callback ;;
      Normal (b :: bs)
  end.

(** [array[i] = v] on a list, for [i] in range. *)
Fixpoint update_nth {A : Type} (i : nat) (v : A) (l : list A) : list A :=
  match l, i with
  | [], _ => []
  | _ :: t, O => v :: t
  | h :: t, S j => h :: update_nth j v t
  end.

(** The package comes as a bundle and, for [DistanceMeasure], as its
    TypeScript source.  The two differ in one place, the height shown on
    the Z line of a distance label: the bundle takes the difference of the
    cartographic heights, the TypeScript source the magnitude of the z
    difference. *)
Inductive Build : Set := Bundle | TypeScriptSource.

(** The public operations that change a session. *)
Inductive Operation : Set :=
| Start (style_ : GraphicsOptions)
| End_
| Destroy.

Section Classes.
Variable lib : Lib.
Variable build : Build.

(** *** Measure *)

Definition constructor (c : Class) (viewer : option Viewer)
  (options : MeasureOptions) : completion Measure :=
  match viewer with
  | None => Throw "undefined viewer"
  | Some v =>
      let lo := options_locale options in
      Normal {|
        class := c;
        _viewer := v;
        _labelStyle :=
          spread_labelStyle DefaultOptions_labelStyle
                            (options_labelStyle options);
        _units := or_else (options_units options) "kilometers"%string;
        _onEnd := options_onEnd options;
        _locale :=
          Locale.mk (or_else (o_area lo) "Area"%string)
                    (or_else (o_start lo) "start"%string)
                    (or_else (o_total lo) "Total"%string)
                    (or_else (o_formatLength lo) (formatLength lib))
                    (or_else (o_formatArea lo) (formatArea lib));
        mouseTooltip :=
          {| tooltip_hidden := true; tooltip_destroyed := false |};
        drawer :=
          {| sameStyle := or_else (fst (options_drawerOptions options)) true;
             terrain := or_else (snd (options_drawerOptions options)) true;
             received := [] |};
        _labels := [];
        _labels_isDestroyed := false;
        primitives_labels := true;
        _status := INIT;
        _splitNum :=
          match c with
          | AreaSurfaceMeasure => or_else (options_splitNum options) 10%nat
          | DistanceSurfaceMeasure =>
              or_else (options_splitNum options) 100%nat
          | _ => 0%nat
          end
      |}
  end.

Definition destroyed (m : Measure) : bool :=
  match _status m with DESTROY => true | _ => false end.

Definition _cartesian2Lonlat (m : Measure) (positions : list Cartesian3.t)
  : completion (list LonLat) :=
  Array_map positions
    (fun pos =>
       match cartesianToCartographic (_viewer m) pos with
       | None => Throw "TypeError: Cannot read properties of undefined"
       | Some cartographic =>
           let lon := toDegrees (Cartographic.longitude cartographic) in
           let lat := toDegrees (Cartographic.latitude cartographic) in
           Normal (lon, lat)
       end).

Definition _start (t : DrawType) (style_ : GraphicsOptions)
  (clampToGround : option bool) (m : Measure) : Outcome :=
  match _status m with
  | INIT =>
      let m1 :=
        set_drawer
          (Drawer_call
             (DrawerStart {| type := t;
                             dynamicOptions := (style_, clampToGround);
                             finalOptions := (style_, clampToGround);
                             onEnd := _onEnd m |})
             (drawer m)) m in
      Returned (set_status WORKING m1)
  | _ => Returned m
  end.

Definition end_ (m : Measure) : Outcome :=
  let m1 := set_drawer (Drawer_call DrawerReset (drawer m)) m in
  m2 <~ step (LabelCollection_removeAll m1) m1 ;;
  Returned (set_status INIT m2).

Definition destroy (m : Measure) : Outcome :=
  m1 <~ end_ m ;;
  let m2 :=
    set_mouseTooltip
      {| tooltip_hidden := tooltip_hidden (mouseTooltip m1);
         tooltip_destroyed := true |} m1 in
  m3 <~ (if negb (isDestroyed (_viewer m2))
         then PrimitiveCollection_remove m2 else Returned m2) ;;
  Returned (set_status DESTROY m3).

(** [start], as each class defines or inherits it. *)
Definition start (style_ : GraphicsOptions) (m : Measure) : Outcome :=
  match class m with
  | BaseMeasure => Returned m
  | AreaMeasure | AreaSurfaceMeasure =>
      m1 <~ end_ m ;;
      _start POLYGON style_ None m1
  | DistanceMeasure => _start POLYLINE style_ (Some false) m
  | DistanceSurfaceMeasure => _start POLYLINE style_ (Some true) m
  end.

(** *** AreaMeasure *)

(** [getArea] of [AreaMeasure]: the ring is the positions followed by
    the first of them once more ([lonlats[0]], undefined when there is no
    position). *)
Definition AreaMeasure_getArea (m : Measure) (positions : list Cartesian3.t)
  : completion number :=
  lonlats <- _cartesian2Lonlat m positions ;;
  pg <- polygon [map Some lonlats ++ [hd_error lonlats]] ;;
  let polygonArea := turf_area lib pg in
  Normal polygonArea.

(** *** AreaSurfaceMeasure *)

Definition _Cartesian2turfPolygon (positions : list Cartesian2.t)
  : completion (list LonLat) :=
  let ring := map (fun element => (Cartesian2.x element, Cartesian2.y element))
                  positions in
  match hd_error ring with
  | None => Throw "TypeError: Cannot read properties of undefined"
  | Some first =>
      pg <- polygon [map Some (ring ++ [first])] ;;
      Normal (hd [] pg)
  end.

Definition _turfPloygon2CartesianArr (outer : list LonLat)
  : list Cartesian2.t :=
  map (fun item => Cartesian2.mk (fst item) (snd item)) outer.

Definition _intersect (poly1 poly2 : list LonLat) : list Cartesian2.t :=
  match turf_intersect lib poly1 poly2 with
  | Some geometry => _turfPloygon2CartesianArr geometry
  | None => []
  end.

(** The two loops of [_getWorldPositionsArea]: the local coordinates of
    the walk along the ring, then the shoelace sum. *)
Fixpoint walk (positions : list Cartesian3.t) (xs ys : list number)
  : list number * list number :=
  match positions with
  | p1 :: ((p2 :: _) as rest) =>
      let point1cartographic := Cartographic_fromCartesian lib p1 in
      let point2cartographic := Cartographic_fromCartesian lib p2 in
      let s :=
        Math_sqrt
          (Math_pow2 (EllipsoidGeodesic_surfaceDistance lib
                        point1cartographic point2cartographic)
           + Math_pow2 (Cartographic.height point2cartographic
                        - Cartographic.height point1cartographic)) in
      let radiansPerDegree := Math_PI / 180 in
      let lat1 := Cartographic.latitude point2cartographic * radiansPerDegree in
      let lon1 := Cartographic.longitude point2cartographic * radiansPerDegree in
      let lat2 := Cartographic.latitude point1cartographic * radiansPerDegree in
      let lon2 := Cartographic.longitude point1cartographic * radiansPerDegree in
      let angle0 :=
        - Math_atan2 lib
            (Math_sin lib (lon1 - lon2) * Math_cos lib lat2)
            (Math_cos lib lat1 * Math_sin lib lat2
             - Math_sin lib lat1 * Math_cos lib lat2
               * Math_cos lib (lon1 - lon2)) in
      let angle := if angle0 <? 0 then angle0 + Math_PI * 2 else angle0 in
      walk rest (xs ++ [Math_cos lib angle * s + last xs 0])
                (ys ++ [Math_sin lib angle * s + last ys 0])
  | _ => (xs, ys)
  end.

Definition _getWorldPositionsArea (positions : list Cartesian3.t) : number :=
  let '(x, y) := walk positions [0] [0] in
  let sum :=
    fold_left
      (fun sum i => sum + (nth i x 0 * nth (i + 1) y 0
                           - nth (i + 1) x 0 * nth i y 0))
      (seq 0 (List.length x - 1)) 0 in
  Math_abs (sum + last x 0 * nth 0 y 0 - nth 0 x 0 * last y 0) / 2.

Definition calculateDetailSurfaceArea (m : Measure)
  (positions : list Cartesian2.t) : number :=
  let worldPositions :=
    flat_map (fun element =>
                match pickCartesian3 (_viewer m) element with
                | Some pickResult => [pickResult]
                | None => []
                end)
             positions in
  _getWorldPositionsArea worldPositions.

Definition _calculateSurfaceArea (m : Measure)
  (positions : list Cartesian2.t) : completion number :=
  let bounds := getBounds positions in
  let points := turf_randomPoint lib (_splitNum m) bounds in
  mainPoly <- _Cartesian2turfPolygon positions ;;
  let voronoiPolygons := turf_voronoi lib points bounds in
  Normal
    (fold_left
       (fun result element =>
          let intersectPoints := _intersect mainPoly element in
          result + calculateDetailSurfaceArea m intersectPoints)
       voronoiPolygons 0).

Definition AreaSurfaceMeasure_getArea (m : Measure)
  (positions : list Cartesian3.t) : completion number :=
  _calculateSurfaceArea m
    (map (fun item => worldToWindowCoordinates (_viewer m) item) positions).

(** [this.getArea] on an area session. *)
Definition getArea (m : Measure) (positions : list Cartesian3.t)
  : completion number :=
  match class m with
  | AreaSurfaceMeasure => AreaSurfaceMeasure_getArea m positions
  | _ => AreaMeasure_getArea m positions
  end.

Definition AreaMeasure_updateLabelTexts (m : Measure)
  (positions : list Cartesian3.t) : completion Measure :=
  label_ <- LabelCollection_get 0 m ;;
  a <- getArea m positions ;;
  let area2 := toFixed2 a in
  let unitedArea := toFixed2 (convertArea lib area2 (_units m)) in
  match label_ with
  | None => Throw "TypeError: Cannot set properties of undefined"
  | Some label =>
      Normal (set_labels
                (update_nth 0 (set_text label (AreaText area2 unitedArea))
                            (_labels m)) m)
  end.

Definition AreaMeasure_updateLabelFunc (m : Measure)
  (positions : list Cartesian3.t) : completion Measure :=
  m1 <- LabelCollection_removeAll m ;;
  if (List.length positions <? 3)%nat then Normal m1
  else
    let position_ :=
      Cartesian3.mk (mean (map Cartesian3.x positions))
                    (mean (map Cartesian3.y positions))
                    (mean (map Cartesian3.z positions)) in
    m2 <- LabelCollection_add
            {| position := position_;
               labelStyle :=
                 set_pixelOffset (_labelStyle m1) (Cartesian2.mk (-100) 0);
               text := NoText |} m1 ;;
    AreaMeasure_updateLabelTexts m2 positions.

(** *** DistanceMeasure *)

Definition DistanceMeasure_getDistance (start_ end__ : Cartesian3.t)
  : number :=
  Cartesian3.distance start_ end__.

Definition getCart3AxisDistance (start_ end__ : Cartesian3.t)
  : Cartesian3.t :=
  Cartesian3.mk (Cartesian3.x start_ - Cartesian3.x end__)
                (Cartesian3.y start_ - Cartesian3.y end__)
                (Cartesian3.z start_ - Cartesian3.z end__).

Definition getCart3Height (start_ end__ : Cartesian3.t) : number :=
  let startCartographic := Cartographic_fromCartesian lib start_ in
  let endCartographic := Cartographic_fromCartesian lib end__ in
  Math_abs (Cartographic.height startCartographic
            - Cartographic.height endCartographic).

(** *** DistanceSurfaceMeasure *)

(** The [length] of [_findWindowPositionByPixelInterval]: the length of
    the segment on the screen. *)
Definition screenLength (startPosition endPosition : Cartesian2.t) : number :=
  Math_sqrt
    (Math_pow2 (Cartesian2.x endPosition - Cartesian2.x startPosition)
     + Math_pow2 (Cartesian2.y endPosition - Cartesian2.y startPosition)).

Definition _findWindowPositionByPixelInterval
  (startPosition endPosition : Cartesian2.t) (interval : number)
  : Cartesian2.t :=
  let length := screenLength startPosition endPosition in
  if length <? interval then Cartesian2.mk 0 0
  else
    let x := interval / length
             * (Cartesian2.x endPosition - Cartesian2.x startPosition)
             + Cartesian2.x startPosition in
    let y := interval / length
             * (Cartesian2.y endPosition - Cartesian2.y startPosition)
             + Cartesian2.y startPosition in
    Cartesian2.mk x y.

Definition _calculateDetailSurfaceLength (viewer : Viewer)
  (startPoint endPoint : Cartesian2.t) : number :=
  let surfaceStartCartesian3 := pickCartesian3 viewer startPoint in
  let surfaceEndCartesian3 := pickCartesian3 viewer endPoint in
  match surfaceStartCartesian3, surfaceEndCartesian3 with
  | Some surfaceStart, Some surfaceEnd =>
      let cartographicStart := Cartographic_fromCartesian lib surfaceStart in
      let cartographicEnd := Cartographic_fromCartesian lib surfaceEnd in
      let innerS :=
        EllipsoidGeodesic_surfaceDistance lib cartographicStart
                                          cartographicEnd in
      Math_sqrt (Math_pow2 innerS
                 + Math_pow2 (Cartographic.height cartographicStart
                              - Cartographic.height cartographicEnd))
  | _, _ => 0
  end.

(** The [interval] of [_calculateSurfaceDistance]; the second summand
    under the root is the comma expression [(endPoint.y - startPoint.y, 2)],
    of value 2. *)
Definition sampleInterval (splitNum : nat) (startPoint endPoint : Cartesian2.t)
  : number :=
  Math_sqrt
    (Math_pow2 (Cartesian2.x endPoint - Cartesian2.x startPoint)
     + comma (Cartesian2.y endPoint - Cartesian2.y startPoint) 2)
  / of_nat splitNum.

(** The array [sampleWindowPoints] once both pushes are done. *)
Definition sampleWindowPoints (splitNum : nat)
  (startPoint endPoint : Cartesian2.t) : list Cartesian2.t :=
  let interval := sampleInterval splitNum startPoint endPoint in
  let pushed :=
    fold_left
      (fun points ii =>
         let tempPositon :=
           _findWindowPositionByPixelInterval startPoint endPoint
             (of_nat ii * interval) in
         points ++ [tempPositon])
      (seq 1 splitNum) [startPoint] in
  pushed ++ [endPoint].

(** The indices [jj] and [jj + 1] of the second loop are in range. *)
Definition _calculateSurfaceDistance (viewer : Viewer) (splitNum : nat)
  (startPoint endPoint : Cartesian2.t) : number :=
  let points := sampleWindowPoints splitNum startPoint endPoint in
  fold_left
    (fun resultDistance jj =>
       resultDistance
       + _calculateDetailSurfaceLength viewer
           (nth (jj + 1) points startPoint) (nth jj points startPoint))
    (seq 0 (List.length points - 1)) 0.

Definition DistanceSurfaceMeasure_getDistance (m : Measure)
  (pos1 pos2 : Cartesian3.t) : number :=
  let start_ := worldToWindowCoordinates (_viewer m) pos1 in
  let end__ := worldToWindowCoordinates (_viewer m) pos2 in
  _calculateSurfaceDistance (_viewer m) (_splitNum m) start_ end__.

(** [this.getDistance] on a distance session. *)
Definition getDistance (m : Measure) (start_ end__ : Cartesian3.t) : number :=
  match class m with
  | DistanceSurfaceMeasure => DistanceSurfaceMeasure_getDistance m start_ end__
  | _ => DistanceMeasure_getDistance start_ end__
  end.

(** The height shown on the Z line. *)
Definition shownHeight (newAxisDis : Cartesian3.t)
  (previous current : Cartesian3.t) : number :=
  match build with
  | Bundle => getCart3Height previous current
  | TypeScriptSource => Math_abs (Cartesian3.z newAxisDis)
  end.

(** The variables of the loop of [_updateLabelTexts]. *)
Record Totals : Type := {
  distance : number;
  unitedAxisDis : number * number * number;
  labels : LabelCollection
}.

Definition unitedAxis (m : Measure) (value : number) : number :=
  let isNegative := value <? 0 in
  let converted := toFixed2 (convertLength lib (Math_abs value) (_units m)) in
  if isNegative then - converted else converted.

(** One turn of the loop, for index [i]. *)
Definition labelTurn (m : Measure)
  (positions : list Cartesian3.t) (num : nat) (i : nat) (t : Totals)
  : completion Totals :=
  if _labels_isDestroyed m then Throw destroyed_object
  else
  match nth_error (labels t) i with
  | None => Throw "TypeError: Cannot set properties of undefined"
  | Some label =>
      match i with
      | O =>
          Normal {| distance := distance t;
                    unitedAxisDis := unitedAxisDis t;
                    labels := update_nth i (set_text label StartText)
                                         (labels t) |}
      | S i' =>
          match nth_error positions i', nth_error positions i with
          | Some previous, Some current =>
              let newDis := toFixed2 (getDistance m previous current) in
              let unitedNewDis :=
                toFixed2 (convertLength lib newDis (_units m)) in
              let newAxisDis := getCart3AxisDistance previous current in
              let height := shownHeight newAxisDis previous current in
              let unitedNewAxisDis :=
                (unitedAxis m (Cartesian3.x newAxisDis),
                 unitedAxis m (Cartesian3.y newAxisDis),
                 unitedAxis m (Cartesian3.z newAxisDis)) in
              let distance1 := toFixed2 (distance t + newDis) in
              let unitedDistance :=
                toFixed2 (convertLength lib distance1 (_units m)) in
              let '(a0, a1, a2) := unitedAxisDis t in
              let '(n0, n1, n2) := unitedNewAxisDis in
              let unitedAxisDis1 := (a0 + n0, a1 + n1, a2 + n2) in
              let text_ :=
                DistanceText (i =? num - 1)%nat distance1 unitedDistance
                             height (a2 + n2)
                             (if (1 <? i)%nat
                              then Some (newDis, unitedNewDis) else None) in
              Normal {| distance := distance1;
                        unitedAxisDis := unitedAxisDis1;
                        labels := update_nth i (set_text label text_)
                                             (labels t) |}
          | _, _ => Throw "TypeError: Cannot read properties of undefined"
          end
      end
  end.

Definition DistanceMeasure_updateLabelTexts (m : Measure)
  (positions : list Cartesian3.t) : completion Measure :=
  let num := List.length positions in
  t <- for_each (seq 0 num) (labelTurn m positions num)
                {| distance := 0; unitedAxisDis := (0, 0, 0);
                   labels := _labels m |} ;;
  Normal (set_labels (labels t) m).

Definition DistanceMeasure_updateLabelFunc (m : Measure)
  (positions : list Cartesian3.t) : completion Measure :=
  m1 <- LabelCollection_removeAll m ;;
  m2 <- forEach positions
          (fun position_ acc =>
             let newLabel :=
               {| position := position_; labelStyle := _labelStyle acc;
                  text := NoText |} in
             LabelCollection_add newLabel acc)
          m1 ;;
  DistanceMeasure_updateLabelTexts m2 positions.

(** [_updateLabelFunc], the drawer's [onPointsChange], as each class
    defines or inherits it. *)
Definition _updateLabelFunc (m : Measure) (positions : list Cartesian3.t)
  : completion Measure :=
  match class m with
  | BaseMeasure => Normal m
  | AreaMeasure | AreaSurfaceMeasure => AreaMeasure_updateLabelFunc m positions
  | DistanceMeasure | DistanceSurfaceMeasure =>
      DistanceMeasure_updateLabelFunc m positions
  end.

Definition call (op : Operation) (m : Measure) : Outcome :=
  match op with
  | Start style_ => start style_ m
  | End_ => end_ m
  | Destroy => destroy m
  end.
End Classes.

(** ** A flat scene

    A concrete viewer and library to run the classes on: the window point
    [(x, y)] is picked at the world point [(x, y, 0)] and projects back to
    it, cartographic coordinates are the Cartesian ones, the surface
    distance is the straight one in longitude and latitude, and unit
    conversion leaves a value as it is.  The sine is 0 and the cosine 1
    everywhere, so every planar area is 0. *)
Module FlatScene.

Definition toCartographic (c : Cartesian3.t) : Cartographic.t :=
  Cartographic.mk (Cartesian3.x c) (Cartesian3.y c) (Cartesian3.z c).

Definition viewer : Viewer := {|
  pickPosition := fun p =>
    Some (Cartesian3.mk (Cartesian2.x p) (Cartesian2.y p) 0);
  worldToWindowCoordinates := fun c =>
    Cartesian2.mk (Cartesian3.x c) (Cartesian3.y c);
  cartesianToCartographic := fun c => Some (toCartographic c);
  isDestroyed := false;
  destroyPrimitives := true
|}.

(** The same scene with nothing to pick. *)
Definition emptyViewer : Viewer := {|
  pickPosition := fun _ => None;
  worldToWindowCoordinates := fun c =>
    Cartesian2.mk (Cartesian3.x c) (Cartesian3.y c);
  cartesianToCartographic := fun c => Some (toCartographic c);
  isDestroyed := false;
  destroyPrimitives := true
|}.

Definition surfaceDistance (a b : Cartographic.t) : number :=
  Math_sqrt
    (Math_pow2 (Cartographic.longitude a - Cartographic.longitude b)
     + Math_pow2 (Cartographic.latitude a - Cartographic.latitude b)).

Definition lib : Lib := {|
  Cartographic_fromCartesian := toCartographic;
  EllipsoidGeodesic_surfaceDistance := surfaceDistance;
  convertLength := fun v _ => v;
  convertArea := fun v _ => v;
  turf_intersect := fun _ _ => None;
  turf_randomPoint := fun _ _ => [];
  turf_voronoi := fun _ _ => [];
  Math_sin := fun _ => 0;
  Math_cos := fun _ => 1;
  Math_atan2 := fun _ _ => 0;
  Number_toString := fun _ => "n"%string
|}.

Definition options (splitNum : option nat) : MeasureOptions :=
  {| options_labelStyle := no_labelStyle;
     options_units := Some "meters"%string;
     options_onEnd := None;
     options_drawerOptions := (None, None);
     options_locale := no_locale;
     options_splitNum := splitNum |}.

(** The value of a completion known to be normal. *)
Definition value (c : completion Measure) (otherwise : Measure) : Measure :=
  match c with Normal m => m | Throw _ => otherwise end.

Definition blank (c : Class) (v : Viewer) : Measure := {|
  class := c; _viewer := v; _status := INIT; _labels := [];
  _labels_isDestroyed := false; _labelStyle := DefaultOptions_labelStyle; _units := "meters"%string;
  _locale := Locale.mk "Area" "start" "Total" (formatLength lib)
                       (formatArea lib);
  mouseTooltip := {| tooltip_hidden := true; tooltip_destroyed := false |};
  drawer := {| sameStyle := true; terrain := true; received := [] |};
  _onEnd := None; _splitNum := 0; primitives_labels := true
|}.

(** [new c(viewer, { units: "meters", splitNum })]. *)
Definition session (c : Class) (splitNum : option nat) : Measure :=
  value (constructor lib c (Some viewer) (options splitNum)) (blank c viewer).

Definition triangle : list Cartesian3.t :=
  [Cartesian3.mk 0 0 0; Cartesian3.mk 3 0 0; Cartesian3.mk 3 4 0].

Definition edge : list Cartesian3.t :=
  [Cartesian3.mk 0 0 0; Cartesian3.mk 3 0 0].

(** A session of class [c] after [start()] and three points. *)
Definition working (c : Class) : Measure :=
  let m0 := session c None in
  let m1 := after (start [] m0) in
  value (_updateLabelFunc lib Bundle m1 triangle) m1.

(** The same session after [destroy()]. *)
Definition destroyedSession (c : Class) : Measure :=
  after (destroy (working c)).

End FlatScene.

(** ** A scene in degrees

    A viewer whose ellipsoid reads the x and y of a position as its
    longitude and latitude in degrees, to run the planar area on.  The
    sine is given at the two arguments the triangle below asks for:
    [Math.sin(0)] is 0 and [Math.sin(0.017453292519943295)], the sine of
    one degree, is 0.01745240643728351. *)
Module DegreeScene.

Definition viewer : Viewer := {|
  pickPosition := fun _ => None;
  worldToWindowCoordinates := fun c =>
    Cartesian2.mk (Cartesian3.x c) (Cartesian3.y c);
  cartesianToCartographic := fun c =>
    Some (Cartographic.mk (TurfArea.rad (Cartesian3.x c))
                          (TurfArea.rad (Cartesian3.y c))
                          (Cartesian3.z c));
  isDestroyed := false;
  destroyPrimitives := true
|}.

Definition sine (x : number) : number :=
  if x =? 0 then 0
  else if x =? 0x1.1df46a2529d39p-6 then 0x1.1df0b2b89dd1ep-6
  else nan.

Definition lib : Lib := {|
  Cartographic_fromCartesian := FlatScene.toCartographic;
  EllipsoidGeodesic_surfaceDistance := FlatScene.surfaceDistance;
  convertLength := fun v _ => v;
  convertArea := fun v _ => v;
  turf_intersect := fun _ _ => None;
  turf_randomPoint := fun _ _ => [];
  turf_voronoi := fun _ _ => [];
  Math_sin := sine;
  Math_cos := fun _ => nan;
  Math_atan2 := fun _ _ => nan;
  Number_toString := fun _ => "n"%string
|}.

(** [new AreaMeasure(viewer, { units: "meters" })]. *)
Definition session : Measure :=
  FlatScene.value
    (constructor lib AreaMeasure (Some viewer) (FlatScene.options None))
    (FlatScene.blank AreaMeasure viewer).

(** The triangle of longitude and latitude (0, 0), (1, 0), (3, 1). *)
Definition triangle : list Cartesian3.t :=
  [Cartesian3.mk 0 0 0; Cartesian3.mk 1 0 0; Cartesian3.mk 3 1 0].

Definition lonlats : list LonLat := [(0, 0); (1, 0); (3, 1)].

End DegreeScene.

(** ** Vocabulary of the properties *)

(** Status, labels and drawer of [m'] are those of [m]. *)
Definition unchanged (m m' : Measure) : Prop :=
  _status m' = _status m /\ _labels m' = _labels m /\ drawer m' = drawer m.

(** The call threw. *)
Definition raises (o : Outcome) : Prop :=
  exists e m, o = Thrown e m.

(** The call on [m] threw the error of the destroyed label collection:
    the drawer had been reset by then, and the status and the labels are
    those of [m]. *)
Definition refused (m : Measure) (o : Outcome) : Prop :=
  exists m',
    o = Thrown destroyed_object m'
    /\ _status m' = _status m
    /\ _labels m' = _labels m
    /\ _labels_isDestroyed m' = true
    /\ received (drawer m') = DrawerReset :: received (drawer m).

(** The viewer is live, and its scene holds the label collection and
    destroys what it removes: the state the constructor leaves on a Cesium
    viewer. *)
Definition sceneOwnsLabels (m : Measure) : bool :=
  negb (isDestroyed (_viewer m)) && primitives_labels m
  && destroyPrimitives (_viewer m).

Definition areaClass (c : Class) : bool :=
  match c with
  | AreaMeasure | AreaSurfaceMeasure => true
  | _ => false
  end.

Definition distanceClass (c : Class) : bool :=
  match c with
  | DistanceMeasure | DistanceSurfaceMeasure => true
  | _ => false
  end.

(** The window origin. *)
Definition origin : Cartesian2.t := Cartesian2.mk 0 0.

(** The sample at distance [ii * interval] from the start. *)
Definition sampleAt (splitNum : nat) (startPoint endPoint : Cartesian2.t)
  (ii : nat) : Cartesian2.t :=
  _findWindowPositionByPixelInterval startPoint endPoint
    (of_nat ii * sampleInterval splitNum startPoint endPoint).

Definition pickFails (viewer : Viewer) (p : Cartesian2.t) : bool :=
  match pickCartesian3 viewer p with None => true | Some _ => false end.

(** Whether some sample of the segment has no terrain under it. *)
Definition pickGaps (viewer : Viewer) (splitNum : nat)
  (startPoint endPoint : Cartesian2.t) : bool :=
  existsb (pickFails viewer) (sampleWindowPoints splitNum startPoint endPoint).

Definition finite3 (p : Cartesian3.t) : Prop :=
  is_finite (Cartesian3.x p) = true
  /\ is_finite (Cartesian3.y p) = true
  /\ is_finite (Cartesian3.z p) = true.

(** A position that equals itself under [===]: no coordinate is NaN. *)
Definition comparable (p : LonLat) : bool :=
  (fst p =? fst p) && (snd p =? snd p).

(** The ring of [getArea]: the vertices and the first of them again. *)
Definition closedRing (lonlats : list LonLat) : list LonLat :=
  lonlats ++ firstn 1 lonlats.

(** The increment of segment [i], from vertex [i - 1] to vertex [i]: its
    distance rounded to two decimals. *)
Definition increment (lib : Lib) (m : Measure) (positions : list Cartesian3.t)
  (i : nat) : number :=
  match i with
  | O => 0
  | S i' =>
      match nth_error positions i', nth_error positions i with
      | Some previous, Some current =>
          toFixed2 (getDistance lib m previous current)
      | _, _ => 0
      end
  end.

(** The sum of the first [i] increments, kept on two decimals after each
    addition. *)
Fixpoint runningTotal (lib : Lib) (m : Measure)
  (positions : list Cartesian3.t) (i : nat) : number :=
  match i with
  | O => 0
  | S j =>
      toFixed2 (runningTotal lib m positions j + increment lib m positions (S j))
  end.

(** The label shows [total] as its distance and, when there is one, [shown]
    as its increment. *)
Definition publishes (label : Label) (isLast : bool) (total : number)
  (shown : option number) : Prop :=
  exists unitedDistance height unitedZ,
    match shown with
    | Some newDis =>
        exists unitedNewDis,
          text label
          = DistanceText isLast total unitedDistance height unitedZ
                         (Some (newDis, unitedNewDis))
    | None =>
        text label
        = DistanceText isLast total unitedDistance height unitedZ None
    end.

(** A number that is not below zero: NaN, a zero of either sign, or a
    positive number. *)
Definition SFnot_negative (f : spec_float) : bool :=
  match f with
  | S754_infinity true | S754_finite true _ _ => false
  | _ => true
  end.

(** ... and is not the negative zero either. *)
Definition SFnot_minus (f : spec_float) : bool :=
  match f with
  | S754_infinity true | S754_finite true _ _ | S754_zero true => false
  | _ => true
  end.

Definition not_negative (x : number) : Prop :=
  SFnot_negative (Prim2SF x) = true.

Definition not_minus (x : number) : Prop :=
  SFnot_minus (Prim2SF x) = true.

Definition finite2 (p : Cartesian2.t) : Prop :=
  is_finite (Cartesian2.x p) = true /\ is_finite (Cartesian2.y p) = true.

(** Both ends of a pair of samples have terrain under them. *)
Definition bothPicked (viewer : Viewer) (ab : Cartesian2.t * Cartesian2.t)
  : bool :=
  negb (pickFails viewer (snd ab) || pickFails viewer (fst ab)).

(** The sessions reached from [m0]: by public operations, whether they
    return or throw, and by the reports of the drawer that return, which
    come while the session is [WORKING]. *)
Inductive reachable (lib : Lib) (build : Build) (m0 : Measure)
  : Measure -> Prop :=
| reached_first : reachable lib build m0 m0
| reached_call (op : Operation) (m : Measure) :
    reachable lib build m0 m ->
    reachable lib build m0 (after (call op m))
| reached_points (positions : list Cartesian3.t) (m m' : Measure) :
    reachable lib build m0 m ->
    _status m = WORKING ->
    _updateLabelFunc lib build m positions = Normal m' ->
    reachable lib build m0 m'.

(** The drawer is drawing: the last call it received is a start. *)
Definition drawing (d : Drawer) : bool :=
  match received d with
  | DrawerStart _ :: _ => true
  | _ => false
  end.

(** What stays true of a session [m] that began as [m0]. *)
Definition consistent (m0 m : Measure) : Prop :=
  class m = class m0
  /\ _viewer m = _viewer m0
  /\ _units m = _units m0
  /\ _splitNum m = _splitNum m0
  /\ _labelStyle m = _labelStyle m0
  /\ _onEnd m = _onEnd m0
  /\ (_status m = WORKING <-> drawing (drawer m) = true)
  /\ (_status m <> WORKING -> _labels m = [])
  /\ (class m = BaseMeasure -> _status m <> WORKING)
  /\ (_status m = DESTROY -> tooltip_destroyed (mouseTooltip m) = true)
  /\ (_labels_isDestroyed m = true -> _status m = DESTROY).

(** The session after the operations [ops], called one after the other,
    whether they return or throw. *)
Fixpoint run (ops : list Operation) (m : Measure) : Measure :=
  match ops with
  | [] => m
  | op :: rest => run rest (after (call op m))
  end.

(** The per-axis totals after vertex [i]: the converted differences of the
    segments so far, added up. *)
Fixpoint axisTotals (lib : Lib) (m : Measure) (positions : list Cartesian3.t)
  (i : nat) : number * number * number :=
  match i with
  | O => (0, 0, 0)
  | S j =>
      match nth_error positions j, nth_error positions (S j) with
      | Some previous, Some current =>
          let newAxisDis := getCart3AxisDistance previous current in
          let '(a0, a1, a2) := axisTotals lib m positions j in
          (a0 + unitedAxis lib m (Cartesian3.x newAxisDis),
           a1 + unitedAxis lib m (Cartesian3.y newAxisDis),
           a2 + unitedAxis lib m (Cartesian3.z newAxisDis))
      | _, _ => axisTotals lib m positions j
      end
  end.

(** The text of the label of vertex [i] of a path. *)
Definition pathText (lib : Lib) (build : Build) (m : Measure)
  (positions : list Cartesian3.t) (i : nat) : LabelText :=
  match i with
  | O => StartText
  | S j =>
      match nth_error positions j, nth_error positions (S j) with
      | Some previous, Some current =>
          let total := runningTotal lib m positions (S j) in
          let newDis := increment lib m positions (S j) in
          DistanceText
            (S j =? List.length positions - 1)%nat
            total
            (toFixed2 (convertLength lib total (_units m)))
            (shownHeight lib build (getCart3AxisDistance previous current)
                         previous current)
            (snd (axisTotals lib m positions (S j)))
            (if (1 <? S j)%nat
             then Some (newDis,
                        toFixed2 (convertLength lib newDis (_units m)))
             else None)
      | _, _ => NoText
      end
  end.

(** Three points of the screen. *)
Definition screenTriangle : list Cartesian2.t :=
  [Cartesian2.mk 0 0; Cartesian2.mk 3 0; Cartesian2.mk 3 4].

(** * Properties *)

(** ** Life cycle *)

Section Lifecycle.

Lemma _start_outside_INIT (t : DrawType) (style_ : GraphicsOptions)
  (clampToGround : option bool) (m : Measure) :
  _status m <> INIT -> _start t style_ clampToGround m = Returned m.
Proof.
  unfold _start. destruct (_status m); congruence.
Qed.

Lemma _start_in_INIT (t : DrawType) (style_ : GraphicsOptions)
  (clampToGround : option bool) (m : Measure) :
  _status m = INIT ->
  exists m', _start t style_ clampToGround m = Returned m'
             /\ _status m' = WORKING
             /\ _labels m' = _labels m
             /\ received (drawer m')
                = DrawerStart {| type := t;
                                 dynamicOptions := (style_, clampToGround);
                                 finalOptions := (style_, clampToGround);
                                 onEnd := _onEnd m |}
                  :: received (drawer m).
Proof.
  intros H. unfold _start. rewrite H. eexists. repeat split.
Qed.

(** On a live label collection [end()] returns. *)
Lemma end_returns (m : Measure) :
  _labels_isDestroyed m = false ->
  exists m', end_ m = Returned m'
             /\ _status m' = INIT
             /\ _labels m' = []
             /\ _onEnd m' = _onEnd m
             /\ class m' = class m
             /\ received (drawer m') = DrawerReset :: received (drawer m)
             /\ _labels_isDestroyed m' = false
             /\ _viewer m' = _viewer m
             /\ primitives_labels m' = primitives_labels m.
Proof.
  intros H. unfold end_, LabelCollection_removeAll.
  cbn [_labels_isDestroyed set_drawer]. rewrite H.
  eexists. repeat split. exact H.
Qed.

(** On a destroyed one it throws, after the reset of the drawer and
    before the assignment of the status. *)
Lemma end_refused (m : Measure) :
  _labels_isDestroyed m = true -> refused m (end_ m).
Proof.
  intros H. unfold end_, LabelCollection_removeAll.
  cbn [_labels_isDestroyed set_drawer]. rewrite H.
  eexists. repeat split. exact H.
Qed.

Lemma destroy_returns (m : Measure) :
  _labels_isDestroyed m = false ->
  exists d, destroy m = Returned d
            /\ _status d = DESTROY
            /\ _labels_isDestroyed d = sceneOwnsLabels m.
Proof.
  intros H. unfold destroy.
  destruct (end_returns m H)
    as (m1 & -> & _ & _ & _ & _ & _ & Hl & Hv & Hp).
  cbn [and_then]. unfold PrimitiveCollection_remove, sceneOwnsLabels.
  cbn [_viewer set_mouseTooltip primitives_labels].
  rewrite Hv, Hp.
  destruct (isDestroyed (_viewer m)); cbn [negb andb and_then].
  { eexists. repeat split. exact Hl. }
  destruct (primitives_labels m); cbn [andb and_then].
  2:{ eexists. repeat split. exact Hl. }
  destruct (destroyPrimitives (_viewer m)); cbn [and_then].
  2:{ eexists. repeat split. exact Hl. }
  unfold LabelCollection_destroy.
  cbn [_labels_isDestroyed set_primitives_labels set_mouseTooltip].
  rewrite Hl. cbn [step and_then]. eexists. repeat split.
Qed.

Lemma destroy_refused (m : Measure) :
  _labels_isDestroyed m = true -> refused m (destroy m).
Proof.
  intros H. destruct (end_refused m H) as (m' & He & Hr).
  unfold destroy. rewrite He. cbn [and_then]. now exists m'.
Qed.

Lemma start_restarting (style_ : GraphicsOptions) (m : Measure) :
  areaClass (class m) = true ->
  _labels_isDestroyed m = false ->
  exists m', start style_ m = Returned m'
             /\ _status m' = WORKING
             /\ _labels m' = []
             /\ received (drawer m')
                = DrawerStart {| type := POLYGON;
                                 dynamicOptions := (style_, None);
                                 finalOptions := (style_, None);
                                 onEnd := _onEnd m |}
                  :: DrawerReset :: received (drawer m).
Proof.
  intros Hc Hlive.
  destruct (end_returns m Hlive) as (m1 & He & Hs & Hl & Ho & _ & Hd & _).
  destruct (_start_in_INIT POLYGON style_ None m1 Hs)
    as (m2 & Hst & Hs2 & Hl2 & Hd2).
  exists m2.
  assert (start style_ m = Returned m2) as ->.
  { unfold start. destruct (class m); try discriminate;
      rewrite He; cbn [and_then]; exact Hst. }
  rewrite Hl2, Hl, Hd2, Hd, Ho. repeat split; assumption.
Qed.

Lemma start_refused (style_ : GraphicsOptions) (m : Measure) :
  areaClass (class m) = true ->
  _labels_isDestroyed m = true ->
  refused m (start style_ m).
Proof.
  intros Hc H. destruct (end_refused m H) as (m' & He & Hr).
  exists m'. split; [|exact Hr].
  unfold start. destruct (class m); try discriminate;
    rewrite He; reflexivity.
Qed.

Lemma start_guarded (style_ : GraphicsOptions) (m : Measure) :
  areaClass (class m) = false -> _status m <> INIT ->
  start style_ m = Returned m.
Proof.
  intros Hc Hs. unfold start.
  destruct (class m); try discriminate; try reflexivity;
    apply _start_outside_INIT; assumption.
Qed.

Lemma refused_raises (m : Measure) (o : Outcome) : refused m o -> raises o.
Proof.
  intros (m' & -> & _). now exists destroyed_object, m'.
Qed.

Lemma refused_status (m : Measure) (o : Outcome) :
  refused m o -> _status (after o) = _status m.
Proof.
  intros (m' & -> & H & _). exact H.
Qed.

(** C9, as the code has it.  [destroy()] on a session whose label
    collection is live returns with the status [DESTROY] and [destroyed]
    true.  When the viewer is live and its scene holds the collection and
    destroys what it removes, [destroy()] has destroyed the collection:
    [end()] called on that session resets the drawer and throws at
    [removeAll()], before the status is assigned, so the status stays
    [DESTROY] and [destroyed] stays true.  Otherwise (the viewer reports
    itself destroyed, or its scene does not destroy the collection)
    [end()] returns, sets the status back to [INIT] and makes [destroyed]
    false again. *)
Theorem end_after_destroy (m : Measure) :
  _labels_isDestroyed m = false ->
  exists d,
    destroy m = Returned d
    /\ _status d = DESTROY
    /\ destroyed d = true
    /\ (sceneOwnsLabels m = true ->
        _labels_isDestroyed d = true
        /\ refused d (end_ d)
        /\ _status (after (end_ d)) = DESTROY
        /\ destroyed (after (end_ d)) = true)
    /\ (sceneOwnsLabels m = false ->
        exists r, end_ d = Returned r
                  /\ _status r = INIT
                  /\ destroyed r = false).
Proof.
  intros Hlive.
  destruct (destroy_returns m Hlive) as (d & Hd & Hs & Hl).
  exists d. split; [exact Hd|]. split; [exact Hs|].
  split; [unfold destroyed; now rewrite Hs|]. split.
  - intros Hown. rewrite Hown in Hl.
    pose proof (end_refused d Hl) as Hr.
    pose proof (refused_status d _ Hr) as Hst. rewrite Hs in Hst.
    repeat split; try assumption.
    unfold destroyed. now rewrite Hst.
  - intros Hown. rewrite Hown in Hl.
    destruct (end_returns d Hl) as (r & Hr & Hi & _).
    exists r. repeat split; try assumption.
    unfold destroyed. now rewrite Hi.
Qed.

Lemma end_after_destroy_witness :
  _labels_isDestroyed (FlatScene.working DistanceMeasure) = false
  /\ exists d,
      destroy (FlatScene.working DistanceMeasure) = Returned d
      /\ _status d = DESTROY
      /\ refused d (end_ d).
Proof.
  assert (_labels_isDestroyed (FlatScene.working DistanceMeasure) = false)
    as H by (vm_compute; reflexivity).
  split; [exact H|].
  destruct (end_after_destroy (FlatScene.working DistanceMeasure) H)
    as (d & Hd & Hs & _ & Hown & _).
  exists d. split; [exact Hd|]. split; [exact Hs|].
  apply Hown. vm_compute. reflexivity.
Defined.

(** C9 fails on a session of a live viewer: after [destroy()], [end()]
    throws and the session stays destroyed. *)
Lemma end_after_destroy_throws :
  destroy (FlatScene.working DistanceMeasure)
  = Returned (FlatScene.destroyedSession DistanceMeasure)
  /\ _status (FlatScene.destroyedSession DistanceMeasure) = DESTROY
  /\ raises (end_ (FlatScene.destroyedSession DistanceMeasure))
  /\ _status (after (end_ (FlatScene.destroyedSession DistanceMeasure)))
     = DESTROY
  /\ destroyed (after (end_ (FlatScene.destroyedSession DistanceMeasure)))
     = true.
Proof.
  assert (_labels_isDestroyed (FlatScene.working DistanceMeasure) = false)
    as Hlive by (vm_compute; reflexivity).
  destruct (destroy_returns _ Hlive) as (d & Hd & Hs & Hl).
  assert (d = FlatScene.destroyedSession DistanceMeasure) as <-.
  { unfold FlatScene.destroyedSession. now rewrite Hd. }
  change (sceneOwnsLabels (FlatScene.working DistanceMeasure))
    with true in Hl.
  pose proof (end_refused d Hl) as Hr.
  pose proof (refused_status d _ Hr) as Hst. rewrite Hs in Hst.
  split; [exact Hd|]. split; [exact Hs|].
  split; [exact (refused_raises d _ Hr)|]. split; [exact Hst|].
  unfold destroyed. now rewrite Hst.
Qed.

(** C8, as the code has it.  In a state other than [INIT], [_start] does
    nothing, and so does [start()] of [Measure], [DistanceMeasure] and
    [DistanceSurfaceMeasure]: status, labels and drawer stay as they are.
    [start()] of [AreaMeasure] and [AreaSurfaceMeasure] calls [end()]
    first.  On a live label collection it resets the drawer, removes the
    labels, starts the drawer again and leaves the session [WORKING]; on a
    label collection that has been destroyed (a session [destroy()] has
    left in [DESTROY]) it throws at [removeAll()] after the reset of the
    drawer, and the status stays as it was. *)
Theorem start_outside_INIT (m : Measure) (style_ : GraphicsOptions) :
  _status m <> INIT ->
  (forall t clampToGround, _start t style_ clampToGround m = Returned m)
  /\ (areaClass (class m) = false -> start style_ m = Returned m)
  /\ (areaClass (class m) = true ->
      _labels_isDestroyed m = false ->
      exists m', start style_ m = Returned m'
                 /\ _status m' = WORKING
                 /\ _labels m' = []
                 /\ received (drawer m')
                    = DrawerStart {| type := POLYGON;
                                     dynamicOptions := (style_, None);
                                     finalOptions := (style_, None);
                                     onEnd := _onEnd m |}
                      :: DrawerReset :: received (drawer m))
  /\ (areaClass (class m) = true ->
      _labels_isDestroyed m = true ->
      refused m (start style_ m)
      /\ _status (after (start style_ m)) = _status m).
Proof.
  intros Hs. split; [|split; [|split]].
  - intros t c. now apply _start_outside_INIT.
  - intros Hc. now apply start_guarded.
  - intros Hc Hlive. now apply start_restarting.
  - intros Hc Hd. pose proof (start_refused style_ m Hc Hd) as Hr.
    split; [exact Hr|]. exact (refused_status m _ Hr).
Qed.

Lemma start_outside_INIT_witness :
  _status (FlatScene.working DistanceMeasure) <> INIT
  /\ start [] (FlatScene.working DistanceMeasure)
     = Returned (FlatScene.working DistanceMeasure).
Proof.
  assert (_status (FlatScene.working DistanceMeasure) <> INIT) as H
    by (vm_compute; discriminate).
  split; [exact H|].
  apply (proj1 (proj2 (start_outside_INIT
                         (FlatScene.working DistanceMeasure) [] H))).
  reflexivity.
Defined.

(** C8 fails on a working [AreaMeasure] session that shows its area
    label: [start()] returns a session without labels and with two more
    calls on its drawer. *)
Lemma start_on_working_AreaMeasure_changes :
  _status (FlatScene.working AreaMeasure) <> INIT
  /\ ~ (exists m', start [] (FlatScene.working AreaMeasure) = Returned m'
                   /\ unchanged (FlatScene.working AreaMeasure) m').
Proof.
  split; [vm_compute; discriminate|].
  intros (m' & Hst & _ & Hl & _).
  destruct (start_restarting [] (FlatScene.working AreaMeasure) eq_refl)
    as (m2 & Hst2 & _ & Hl2 & _); [vm_compute; reflexivity|].
  rewrite Hst in Hst2. injection Hst2 as <-.
  rewrite Hl2 in Hl. vm_compute in Hl. discriminate.
Qed.

(** C1, as the code has it.  The package has no lifecycle error.  On a
    session in the [DESTROY] state, [start()] of [Measure],
    [DistanceMeasure] and [DistanceSurfaceMeasure] returns silently and
    leaves the session as it is.  When [destroy()] has destroyed the label
    collection, [end()], [destroy()] and [start()] of [AreaMeasure] and
    [AreaSurfaceMeasure] throw the error of the destroyed collection, at
    [removeAll()]: the drawer has been reset by then, and status and
    labels are unchanged.  When it has not (the viewer reported itself
    destroyed), these operations return and [end()] and [start()] of the
    area classes take the session out of [DESTROY]. *)
Theorem operations_on_destroyed (m : Measure) :
  destroyed m = true ->
  (areaClass (class m) = false ->
   forall style_, call (Start style_) m = Returned m)
  /\ (_labels_isDestroyed m = true ->
      refused m (call End_ m)
      /\ refused m (call Destroy m)
      /\ (areaClass (class m) = true ->
          forall style_, refused m (call (Start style_) m)))
  /\ (_labels_isDestroyed m = false ->
      (exists r, call End_ m = Returned r /\ _status r = INIT)
      /\ (exists d, call Destroy m = Returned d /\ _status d = DESTROY)
      /\ (areaClass (class m) = true ->
          forall style_,
          exists w, call (Start style_) m = Returned w
                    /\ _status w = WORKING)).
Proof.
  intros Hd.
  assert (_status m <> INIT) as Hs.
  { unfold destroyed in Hd. destruct (_status m); discriminate. }
  split; [|split].
  - intros Hc style_. cbn [call]. now apply start_guarded.
  - intros Hl. split; [|split].
    + now apply end_refused.
    + now apply destroy_refused.
    + intros Hc style_. now apply start_refused.
  - intros Hl. cbn [call]. split; [|split].
    + destruct (end_returns m Hl) as (r & H & Hi & _). now exists r.
    + destruct (destroy_returns m Hl) as (d & H & Hst & _). now exists d.
    + intros Hc style_.
      destruct (start_restarting style_ m Hc Hl) as (w & H & Hw & _).
      now exists w.
Qed.

Lemma operations_on_destroyed_witness :
  destroyed (FlatScene.destroyedSession AreaMeasure) = true
  /\ refused (FlatScene.destroyedSession AreaMeasure)
             (call Destroy (FlatScene.destroyedSession AreaMeasure))
  /\ refused (FlatScene.destroyedSession AreaMeasure)
             (call (Start []) (FlatScene.destroyedSession AreaMeasure)).
Proof.
  assert (destroyed (FlatScene.destroyedSession AreaMeasure) = true)
    as H by (vm_compute; reflexivity).
  assert (_labels_isDestroyed (FlatScene.destroyedSession AreaMeasure)
          = true) as Hl by (vm_compute; reflexivity).
  split; [exact H|].
  destruct (proj1 (proj2 (operations_on_destroyed
                            (FlatScene.destroyedSession AreaMeasure) H)) Hl)
    as (_ & Hdestroy & Hstart).
  split; [exact Hdestroy|]. apply Hstart. reflexivity.
Defined.

(** C1 fails on a destroyed [DistanceMeasure] session: [start()] returns
    without an error. *)
Lemma start_on_destroyed_does_not_throw :
  destroyed (FlatScene.destroyedSession DistanceMeasure) = true
  /\ _labels_isDestroyed (FlatScene.destroyedSession DistanceMeasure) = true
  /\ call (Start []) (FlatScene.destroyedSession DistanceMeasure)
     = Returned (FlatScene.destroyedSession DistanceMeasure)
  /\ ~ raises (call (Start []) (FlatScene.destroyedSession DistanceMeasure)).
Proof.
  assert (call (Start []) (FlatScene.destroyedSession DistanceMeasure)
          = Returned (FlatScene.destroyedSession DistanceMeasure)) as H.
  { unfold call. apply start_guarded; [reflexivity|vm_compute; discriminate]. }
  split; [vm_compute; reflexivity|]. split; [vm_compute; reflexivity|].
  split; [exact H|].
  rewrite H. intros (e & m' & He). discriminate.
Qed.

End Lifecycle.

(** ** Lists and loops *)

Section Loops.
Context {A B : Type}.

Lemma push_loop (f : B -> A) (l : list B) (init : list A) :
  fold_left (fun points ii => points ++ [f ii]) l init = init ++ map f l.
Proof.
  revert init. induction l as [|b l IH]; intros init; cbn.
  - now rewrite app_nil_r.
  - rewrite IH, <- app_assoc. reflexivity.
Qed.

Lemma fold_left_pointwise (f g : A -> B -> A) (l : list B) (a : A) :
  (forall x b, In b l -> f x b = g x b) ->
  fold_left f l a = fold_left g l a.
Proof.
  revert a. induction l as [|b l IH]; intros a H; cbn; [reflexivity|].
  rewrite (H a b) by now left.
  apply IH. intros x b' Hb. apply H. now right.
Qed.

Lemma fold_left_shift (f : A -> nat -> A) (k n : nat) (a : A) :
  fold_left f (seq (S k) n) a = fold_left (fun r j => f r (S j)) (seq k n) a.
Proof.
  revert k a. induction n as [|n IH]; intros k a; cbn; [reflexivity|].
  apply IH.
Qed.
End Loops.

(** A loop over the indices of neighbours is a loop over the pairs of
    neighbours. *)
Lemma neighbours_loop {A : Type} (g : A -> A -> number) (d : A)
  (points : list A) (acc : number) :
  fold_left (fun r jj => r + g (nth (jj + 1) points d) (nth jj points d))
            (seq 0 (List.length points - 1)) acc
  = fold_left (fun r ab => r + g (snd ab) (fst ab))
              (combine points (tl points)) acc.
Proof.
  revert acc. induction points as [|a t IH]; intros acc; [reflexivity|].
  destruct t as [|b t']; [reflexivity|].
  change (List.length (a :: b :: t') - 1)%nat with (S (List.length t')).
  change (seq 0 (S (List.length t'))) with (0%nat :: seq 1 (List.length t')).
  cbn [fold_left combine tl fst snd].
  rewrite fold_left_shift.
  change (nth (0 + 1) (a :: b :: t') d) with b.
  change (nth 0 (a :: b :: t') d) with a.
  rewrite <- IH.
  replace (List.length (b :: t') - 1)%nat with (List.length t')
    by (cbn; lia).
  apply fold_left_pointwise. intros x j _. reflexivity.
Qed.

(** ** The surface distance engine *)

Section SurfaceDistance.
Variable lib : Lib.
Variable viewer : Viewer.

Lemma sampleWindowPoints_eq (splitNum : nat)
  (startPoint endPoint : Cartesian2.t) :
  sampleWindowPoints splitNum startPoint endPoint
  = startPoint
      :: map (sampleAt splitNum startPoint endPoint) (seq 1 splitNum)
      ++ [endPoint].
Proof.
  unfold sampleWindowPoints. cbv zeta. rewrite push_loop. reflexivity.
Qed.

Lemma sampleWindowPoints_length (splitNum : nat)
  (startPoint endPoint : Cartesian2.t) :
  List.length (sampleWindowPoints splitNum startPoint endPoint)
  = (splitNum + 2)%nat.
Proof.
  rewrite sampleWindowPoints_eq. cbn [List.length].
  rewrite length_app, length_map, length_seq. cbn. lia.
Qed.

Lemma surfaceDistance_sum (splitNum : nat)
  (startPoint endPoint : Cartesian2.t) :
  let points := sampleWindowPoints splitNum startPoint endPoint in
  _calculateSurfaceDistance lib viewer splitNum startPoint endPoint
  = fold_left
      (fun resultDistance ab =>
         resultDistance
         + _calculateDetailSurfaceLength lib viewer (snd ab) (fst ab))
      (combine points (tl points)) 0.
Proof.
  cbv zeta. unfold _calculateSurfaceDistance. cbv zeta.
  apply (neighbours_loop (_calculateDetailSurfaceLength lib viewer)).
Qed.

Lemma failed_pick_zero (a b : Cartesian2.t) :
  pickFails viewer a || pickFails viewer b = true ->
  _calculateDetailSurfaceLength lib viewer a b = 0.
Proof.
  unfold pickFails, _calculateDetailSurfaceLength. cbv zeta.
  destruct (pickCartesian3 viewer a), (pickCartesian3 viewer b);
    cbn; intros H; try discriminate; reflexivity.
Qed.

Lemma beyond_segment (startPosition endPosition : Cartesian2.t)
  (interval : number) :
  (screenLength startPosition endPosition <? interval) = true ->
  _findWindowPositionByPixelInterval startPosition endPosition interval
  = origin.
Proof.
  intros H. unfold _findWindowPositionByPixelInterval. cbv zeta.
  rewrite H. reflexivity.
Qed.

(** C10. When the distance asked of [_findWindowPositionByPixelInterval]
    exceeds the length of the segment on the screen, the function returns
    the point (0, 0).  In [_calculateSurfaceDistance] the sample of such
    an index is therefore the window origin, and the terrain is picked
    there. *)
Theorem beyond_segment_gives_origin (startPosition endPosition : Cartesian2.t)
  (interval : number) :
  (screenLength startPosition endPosition <? interval) = true ->
  _findWindowPositionByPixelInterval startPosition endPosition interval
  = Cartesian2.mk 0 0
  /\ forall splitNum ii,
      (1 <= ii <= splitNum)%nat ->
      interval
      = of_nat ii * sampleInterval splitNum startPosition endPosition ->
      let points := sampleWindowPoints splitNum startPosition endPosition in
      nth_error points ii = Some (Cartesian2.mk 0 0)
      /\ pickCartesian3 viewer (nth ii points startPosition)
         = pickPosition viewer (Cartesian2.mk 0 0).
Proof.
  intros H. split; [now apply beyond_segment|].
  intros splitNum ii Hii Hi points.
  assert (nth_error points ii = Some origin) as Hn.
  { subst points. rewrite sampleWindowPoints_eq.
    destruct ii as [|j]; [lia|]. cbn [nth_error].
    rewrite nth_error_app1 by (rewrite length_map, length_seq; lia).
    rewrite nth_error_map, nth_error_seq.
    destruct (Nat.ltb_spec j splitNum) as [_|]; [|lia].
    cbn [option_map]. f_equal. unfold sampleAt.
    change (1 + j)%nat with (S j). rewrite <- Hi.
    now apply beyond_segment. }
  split; [exact Hn|].
  rewrite (nth_error_nth _ _ _ Hn). reflexivity.
Qed.

(** C2, as the code has it.  For a segment on the screen and [splitNum]
    N, the array of samples holds N + 2 points: the start point, the N
    points [_findWindowPositionByPixelInterval] gives for the distances
    [ii * interval], ii from 1 to N, and the end point.  The result is the
    sum of [_calculateDetailSurfaceLength] over the neighbouring samples,
    taken in order.  N is 100 unless the options say otherwise. *)
Theorem surface_distance_sampling (splitNum : nat)
  (startPoint endPoint : Cartesian2.t) :
  let points := sampleWindowPoints splitNum startPoint endPoint in
  points
  = startPoint
      :: map (fun ii =>
                _findWindowPositionByPixelInterval startPoint endPoint
                  (of_nat ii * sampleInterval splitNum startPoint endPoint))
             (seq 1 splitNum)
      ++ [endPoint]
  /\ List.length points = (splitNum + 2)%nat
  /\ _calculateSurfaceDistance lib viewer splitNum startPoint endPoint
     = fold_left
         (fun resultDistance ab =>
            resultDistance
            + _calculateDetailSurfaceLength lib viewer (snd ab) (fst ab))
         (combine points (tl points)) 0
  /\ exists m, constructor lib DistanceSurfaceMeasure (Some viewer) no_options
               = Normal m
               /\ _splitNum m = 100%nat.
Proof.
  cbv zeta. split; [apply sampleWindowPoints_eq|].
  split; [apply sampleWindowPoints_length|].
  split; [apply surfaceDistance_sum|].
  eexists. split; reflexivity.
Qed.

(** C5, as the code has it.  A pair of neighbouring samples one of which
    has no terrain under it adds 0 to the total, and nothing is thrown:
    the total is the sum, over the pairs of neighbouring samples, of 0
    for such a pair and of the surface length for the others.  The result
    is this number alone. *)
Theorem failed_picks_contribute_zero (splitNum : nat)
  (startPoint endPoint : Cartesian2.t) :
  let points := sampleWindowPoints splitNum startPoint endPoint in
  _calculateSurfaceDistance lib viewer splitNum startPoint endPoint
  = fold_left
      (fun resultDistance ab =>
         resultDistance
         + (if pickFails viewer (snd ab) || pickFails viewer (fst ab) then 0
            else _calculateDetailSurfaceLength lib viewer (snd ab) (fst ab)))
      (combine points (tl points)) 0.
Proof.
  cbv zeta. rewrite surfaceDistance_sum. cbv zeta.
  apply fold_left_pointwise. intros x ab _.
  destruct (pickFails viewer (snd ab) || pickFails viewer (fst ab)) eqn:E;
    [|reflexivity].
  now rewrite failed_pick_zero.
Qed.

End SurfaceDistance.

(** C10 on the segment from (10, 10) to (13, 11) cut in four: the fourth
    sample is asked at 3.31..., beyond the length 3.16.... *)
Lemma beyond_segment_gives_origin_witness :
  (screenLength (Cartesian2.mk 10 10) (Cartesian2.mk 13 11)
   <? of_nat 4 * sampleInterval 4 (Cartesian2.mk 10 10) (Cartesian2.mk 13 11))
  = true
  /\ nth_error (sampleWindowPoints 4 (Cartesian2.mk 10 10) (Cartesian2.mk 13 11))
               4
     = Some (Cartesian2.mk 0 0).
Proof.
  assert ((screenLength (Cartesian2.mk 10 10) (Cartesian2.mk 13 11)
           <? of_nat 4
              * sampleInterval 4 (Cartesian2.mk 10 10) (Cartesian2.mk 13 11))
          = true) as H by (vm_compute; reflexivity).
  split; [exact H|].
  pose proof (beyond_segment_gives_origin FlatScene.viewer
                (Cartesian2.mk 10 10) (Cartesian2.mk 13 11)
                (of_nat 4 * sampleInterval 4 (Cartesian2.mk 10 10)
                                             (Cartesian2.mk 13 11)) H) as T.
  apply (proj2 T 4%nat 4%nat); [lia|reflexivity].
Defined.

(** C2 fails on the count of the samples: a segment cut in 100 has 102 of
    them, not 101. *)
Lemma sample_count_is_not_N_plus_1 :
  List.length
    (sampleWindowPoints 100 (Cartesian2.mk 10 10) (Cartesian2.mk 13 14))
  <> (100 + 1)%nat.
Proof.
  rewrite sampleWindowPoints_length. discriminate.
Qed.

(** C5 fails on the information given to the caller: no reading of the
    returned number tells whether a pick failed.  On the segment from
    (0, 0) to (0, 0) the result is 0 both in the flat scene, where every
    pick succeeds, and in the empty scene, where every pick fails. *)
Lemma pick_gaps_are_not_reported :
  ~ exists informed : number -> bool,
      forall viewer,
        In viewer [FlatScene.viewer; FlatScene.emptyViewer] ->
        informed (_calculateSurfaceDistance FlatScene.lib viewer 2
                    (Cartesian2.mk 0 0) (Cartesian2.mk 0 0))
        = pickGaps viewer 2 (Cartesian2.mk 0 0) (Cartesian2.mk 0 0).
Proof.
  intros (informed & H).
  pose proof (H FlatScene.viewer (or_introl eq_refl)) as H1.
  pose proof (H FlatScene.emptyViewer (or_intror (or_introl eq_refl))) as H2.
  vm_compute in H1, H2. congruence.
Qed.

(** C6 at two coincident points of a [DistanceSurfaceMeasure] session in
    the flat scene: the points project to (3, 4), the interval is
    sqrt(0 + 2) / 100, beyond the length 0, so the hundred samples between
    the end points are the window origin, and the result is twice the
    distance from (3, 4) to the origin. *)
Theorem coincident_points_surface_distance :
  sampleWindowPoints 2 (Cartesian2.mk 3 4) (Cartesian2.mk 3 4)
  = [Cartesian2.mk 3 4; Cartesian2.mk 0 0; Cartesian2.mk 0 0; Cartesian2.mk 3 4]
  /\ getDistance FlatScene.lib (FlatScene.session DistanceSurfaceMeasure None)
       (Cartesian3.mk 3 4 7) (Cartesian3.mk 3 4 7)
     = 10.
Proof.
  split; vm_compute; reflexivity.
Qed.

(** ** Coincident points *)

Section Coincident.

Lemma finite_is_zero_or_finite (x : number) :
  is_finite x = true ->
  (exists s, Prim2SF x = S754_zero s)
  \/ (exists s m e, Prim2SF x = S754_finite s m e).
Proof.
  unfold is_finite, Prim2SF.
  destruct (is_nan x); [discriminate|].
  destruct (is_zero x); [intros _; left; eauto|].
  destruct (is_infinity x); [discriminate|]. intros _.
  destruct (Z.frexp x) as [r exp].
  destruct (shr_fexp _ _ _ _ _) as [shr e'].
  destruct (shr_m shr); [left|right|left]; eauto.
Qed.

Lemma sub_diag (x : number) : is_finite x = true -> x - x = 0.
Proof.
  intros H. apply Prim2SF_inj. rewrite sub_spec.
  change (Prim2SF 0) with (S754_zero false).
  destruct (finite_is_zero_or_finite x H) as [(s & ->)|(s & m & e & ->)].
  - destruct s; reflexivity.
  - unfold SF64sub, SFsub. rewrite Z.sub_diag. reflexivity.
Qed.

(** A finite number below 1e21 is put on the two-decimal grid. *)
Lemma toFixed2_two_decimals (x : number) :
  is_finite x = true -> (1e21 <=? PrimFloat.abs x) = false ->
  two_decimals (toFixed2 x).
Proof.
  intros Hf Hb. unfold toFixed2, two_decimals.
  destruct (finite_is_zero_or_finite x Hf) as [(s & ->)|(s & m & e & ->)].
  - exists 0%Z. now left.
  - rewrite Hb. exists (hundredths m e). destruct s; [now right|now left].
Qed.

(** The straight distance from a point to itself is 0. *)
Lemma distance_coincident (p : Cartesian3.t) :
  finite3 p -> DistanceMeasure_getDistance p p = 0.
Proof.
  intros (Hx & Hy & Hz).
  unfold DistanceMeasure_getDistance, Cartesian3.distance,
    Cartesian3.subtract.
  rewrite (sub_diag _ Hx), (sub_diag _ Hy), (sub_diag _ Hz).
  reflexivity.
Qed.

End Coincident.

(** ** Signs of binary64 results *)

Section Signs.

Lemma not_negative_ltb (x : number) : not_negative x <-> (x <? 0) = false.
Proof.
  unfold not_negative. rewrite ltb_spec.
  change (Prim2SF 0) with (S754_zero false).
  destruct (Prim2SF x) as [s|s| |s m e]; try destruct s; cbn;
    split; congruence.
Qed.

Lemma not_minus_not_negative (x : number) : not_minus x -> not_negative x.
Proof.
  unfold not_minus, not_negative.
  destruct (Prim2SF x) as [s|s| |s m e]; try destruct s; cbn; congruence.
Qed.

Lemma SFnot_minus_not_negative (f : spec_float) :
  SFnot_minus f = true -> SFnot_negative f = true.
Proof.
  destruct f as [s|s| |s m e]; try destruct s; cbn; congruence.
Qed.

Lemma binary_round_aux_plus (m : Z) (e : Z) (l : location) :
  SFnot_minus (binary_round_aux prec emax false m e l) = true.
Proof.
  unfold binary_round_aux.
  destruct (shr_fexp prec emax m e l) as [mrs' e'].
  destruct (shr_fexp prec emax _ e' loc_Exact) as [mrs'' e''].
  destruct (shr_m mrs''); [reflexivity| |reflexivity].
  destruct (Z.leb _ _); reflexivity.
Qed.

Lemma binary_round_plus (m : positive) (e : Z) :
  SFnot_minus (binary_round prec emax false m e) = true.
Proof.
  unfold binary_round. destruct (shl_align _ _ _) as [mz ez].
  apply binary_round_aux_plus.
Qed.

Lemma binary_round_opp (s : bool) (m : positive) (e : Z) :
  binary_round prec emax (negb s) m e
  = SFopp (binary_round prec emax s m e).
Proof.
  unfold binary_round. destruct (shl_align _ _ _) as [mz ez].
  unfold binary_round_aux.
  destruct (shr_fexp prec emax _ ez loc_Exact) as [mrs' e'].
  destruct (shr_fexp prec emax _ e' loc_Exact) as [mrs'' e''].
  destruct (shr_m mrs''); [reflexivity| |reflexivity].
  destruct (Z.leb _ _); reflexivity.
Qed.

Lemma sqrt_not_negative (x : number) : not_negative (Math_sqrt x).
Proof.
  unfold not_negative, Math_sqrt. rewrite sqrt_spec.
  unfold SF64sqrt, SFsqrt.
  destruct (Prim2SF x) as [s|s| |s m e]; try destruct s; try reflexivity.
  destruct (SFsqrt_core_binary _ _ _ _) as [[mz ez] lz].
  apply SFnot_minus_not_negative, binary_round_aux_plus.
Qed.

Lemma add_not_minus (x y : number) :
  not_minus x -> not_negative y -> not_minus (x + y).
Proof.
  unfold not_negative, not_minus. rewrite add_spec. unfold SF64add, SFadd.
  destruct (Prim2SF x) as [sx|sx| |sx mx ex]; try destruct sx;
    destruct (Prim2SF y) as [sy|sy| |sy my ey]; try destruct sy;
    cbn [SFnot_negative SFnot_minus]; try congruence; intros _ _.
  cbn [cond_Zopp].
  change (Z.pos ?a + Z.pos ?b)%Z with (Z.pos (a + b)).
  cbn [binary_normalize]. apply binary_round_plus.
Qed.

Lemma add_zero_r (x : number) : not_minus x -> x + 0 = x.
Proof.
  unfold not_minus. intros H. apply Prim2SF_inj. rewrite add_spec.
  change (Prim2SF 0) with (S754_zero false).
  destruct (Prim2SF x) as [s|s| |s m e]; try destruct s; cbn in *;
    congruence.
Qed.

Lemma zero_not_minus : not_minus 0.
Proof. reflexivity. Qed.

(** A sum that starts at 0 and adds numbers that are not negative is not
    negative. *)
Lemma sum_not_minus {A : Type} (f : A -> number) (l : list A) (acc : number) :
  not_minus acc -> (forall a, In a l -> not_negative (f a)) ->
  not_minus (fold_left (fun r a => r + f a) l acc).
Proof.
  revert acc. induction l as [|a l IH]; intros acc Hacc Hf; cbn;
    [exact Hacc|].
  apply IH.
  - apply add_not_minus; [exact Hacc|]. apply Hf. now left.
  - intros b Hb. apply Hf. now right.
Qed.

(** The two differences of two numbers are opposite, or both the positive
    zero. *)
Lemma SFsub_swap (x y : spec_float) :
  SF64sub y x = SFopp (SF64sub x y)
  \/ (SF64sub x y = S754_zero false /\ SF64sub y x = S754_zero false).
Proof.
  unfold SF64sub, SFsub.
  destruct x as [sx|sx| |sx mx ex]; try destruct sx;
    destruct y as [sy|sy| |sy my ey]; try destruct sy;
    cbn [SFopp negb]; auto.
  all: rewrite (Z.min_comm ey ex).
  all: set (X := Z.pos (fst (shl_align mx ex (Z.min ex ey)))).
  all: set (Y := Z.pos (fst (shl_align my ey (Z.min ex ey)))).
  all: cbn [cond_Zopp].
  all: match goal with
       | |- binary_normalize _ _ ?b _ _ = SFopp (binary_normalize _ _ ?a _ _) \/ _ =>
           replace b with (- a)%Z by lia; destruct a
       end.
  all: cbn [Z.opp binary_normalize]; auto.
  all: left.
  all: try (rewrite <- (binary_round_opp false); reflexivity).
  all: rewrite <- (binary_round_opp true); reflexivity.
Qed.

Lemma SFmul_opp_opp (d : spec_float) :
  SF64mul (SFopp d) (SFopp d) = SF64mul d d.
Proof.
  destruct d as [s|s| |s m e]; try destruct s; reflexivity.
Qed.

(** The square of a difference does not depend on the order. *)
Lemma square_of_difference (a b : number) :
  Math_pow2 (a - b) = Math_pow2 (b - a).
Proof.
  unfold Math_pow2. apply Prim2SF_inj. rewrite !mul_spec, !sub_spec.
  destruct (SFsub_swap (Prim2SF a) (Prim2SF b)) as [->|[-> ->]];
    [|reflexivity].
  now rewrite SFmul_opp_opp.
Qed.

Lemma abs_of_difference (a b : number) :
  Math_abs (a - b) = Math_abs (b - a).
Proof.
  unfold Math_abs. apply Prim2SF_inj. rewrite !abs_spec, !sub_spec.
  destruct (SFsub_swap (Prim2SF a) (Prim2SF b)) as [->|[-> ->]];
    [|reflexivity].
  destruct (SF64sub (Prim2SF a) (Prim2SF b)) as [s|s| |s m e]; reflexivity.
Qed.

Lemma abs_not_minus (x : number) : not_minus (Math_abs x).
Proof.
  unfold not_minus, Math_abs. rewrite abs_spec.
  destruct (Prim2SF x) as [s|s| |s m e]; reflexivity.
Qed.

Lemma is_nan_false (x : number) : is_nan x = false -> Prim2SF x <> S754_nan.
Proof.
  intros H. unfold Prim2SF. rewrite H.
  destruct (is_zero x); [discriminate|].
  destruct (is_infinity x); [discriminate|].
  destruct (Z.frexp x) as [r exp].
  destruct (shr_fexp _ _ _ _ _) as [shr e'].
  destruct (shr_m shr); discriminate.
Qed.

Lemma not_negative_leb (x : number) :
  not_negative x -> is_nan x = false -> (0 <=? x) = true.
Proof.
  intros H Hn. apply is_nan_false in Hn. revert H Hn.
  unfold not_negative. rewrite leb_spec.
  change (Prim2SF 0) with (S754_zero false).
  destruct (Prim2SF x) as [s|s| |s m e]; try destruct s; cbn; congruence.
Qed.

End Signs.

(** ** The planar area engine *)

Section ArrayMap.
Context {A B : Type}.
Variable f : A -> completion B.

Lemma Array_map_cons (a : A) (l : list A) (bs : list B) :
  Array_map (a :: l) f = Normal bs ->
  exists b bs', f a = Normal b /\ Array_map l f = Normal bs'
                /\ bs = b :: bs'.
Proof.
  cbn [Array_map]. destruct (f a) as [b|e]; cbn [bind]; [|discriminate].
  destruct (Array_map l f) as [bs'|e]; cbn [bind]; [|discriminate].
  intros [= <-]. now exists b, bs'.
Qed.

Lemma Array_map_length (l : list A) (bs : list B) :
  Array_map l f = Normal bs -> List.length bs = List.length l.
Proof.
  revert bs. induction l as [|a l IH]; intros bs H.
  - injection H as <-. reflexivity.
  - apply Array_map_cons in H as (b & bs' & _ & H & ->).
    cbn [List.length]. now rewrite (IH bs' H).
Qed.

Lemma Array_map_app (l1 l2 : list A) (bs1 bs2 : list B) :
  Array_map l1 f = Normal bs1 -> Array_map l2 f = Normal bs2 ->
  Array_map (l1 ++ l2) f = Normal (bs1 ++ bs2).
Proof.
  revert bs1. induction l1 as [|a l1 IH]; intros bs1 H1 H2.
  - injection H1 as <-. exact H2.
  - apply Array_map_cons in H1 as (b & bs' & Ha & H1 & ->).
    cbn [Array_map app]. rewrite Ha, (IH bs' H1 H2). reflexivity.
Qed.

Lemma Array_map_rev (l : list A) (bs : list B) :
  Array_map l f = Normal bs -> Array_map (rev l) f = Normal (rev bs).
Proof.
  revert bs. induction l as [|a l IH]; intros bs H.
  - injection H as <-. reflexivity.
  - apply Array_map_cons in H as (b & bs' & Ha & H & ->).
    cbn [rev]. apply Array_map_app; [now apply IH|].
    cbn [Array_map]. rewrite Ha. reflexivity.
Qed.

End ArrayMap.

Section PlanarArea.
Variable lib : Lib.
Variable build : Build.

Lemma getArea_few_positions (m : Measure) (positions : list Cartesian3.t) :
  (List.length positions < 3)%nat ->
  throws (AreaMeasure_getArea lib m positions).
Proof.
  intros H. unfold AreaMeasure_getArea.
  destruct (_cartesian2Lonlat m positions) as [lonlats|e] eqn:E;
    cbn [bind]; [|now exists e].
  apply Array_map_length in E.
  unfold polygon, ring_ok.
  rewrite length_app, length_map, E. cbn [List.length].
  destruct (Nat.ltb_spec (List.length positions + 1) 4) as [_|]; [|lia].
  eexists. reflexivity.
Qed.

Lemma defined_positions (l : list LonLat) :
  flat_map (fun p : option LonLat =>
              match p with Some q => [q] | None => [] end)
           (map Some l)
  = l.
Proof.
  induction l as [|q l IH]; cbn; [reflexivity|]. now rewrite IH.
Qed.

Lemma polygon_closedRing (lonlats : list LonLat) :
  (3 <= List.length lonlats)%nat ->
  forallb comparable lonlats = true ->
  polygon [map Some lonlats ++ [hd_error lonlats]]
  = Normal [closedRing lonlats].
Proof.
  intros Hlen Hc.
  destruct lonlats as [|a t]; [cbn in Hlen; lia|].
  cbn [hd_error closedRing firstn].
  change (map Some (a :: t) ++ [Some a])
    with (map Some (a :: t) ++ map Some [a]).
  rewrite <- map_app.
  unfold polygon, ring_ok.
  rewrite length_map, length_app. cbn [List.length] in *.
  destruct (Nat.ltb_spec (S (List.length t) + 1) 4) as [|_]; [lia|].
  rewrite map_app. cbn [map]. rewrite last_last. cbn [app hd].
  cbn [forallb] in Hc. apply andb_prop in Hc as [Ha _].
  unfold position_equivalent. destruct a as [a0 a1].
  unfold comparable in Ha. cbn [fst snd] in Ha. rewrite Ha.
  cbn [bind].
  change (Some (a0, a1) :: map Some t ++ [Some (a0, a1)])
    with (map Some ((a0, a1) :: t) ++ map Some [(a0, a1)]).
  rewrite <- map_app, defined_positions. reflexivity.
Qed.

Lemma getArea_closes_ring (m : Measure) (positions : list Cartesian3.t)
  (lonlats : list LonLat) :
  (3 <= List.length positions)%nat ->
  _cartesian2Lonlat m positions = Normal lonlats ->
  forallb comparable lonlats = true ->
  AreaMeasure_getArea lib m positions
  = Normal (turf_area lib [closedRing lonlats]).
Proof.
  intros Hlen E Hc. unfold AreaMeasure_getArea. rewrite E. cbn [bind].
  rewrite polygon_closedRing; [reflexivity| |exact Hc].
  apply Array_map_length in E. now rewrite E.
Qed.

(** The area of a polygon of one ring: the absolute value of the sum of
    the ring, added to 0 twice. *)
Lemma turf_area_one_ring (ring : list LonLat) :
  turf_area lib [ring]
  = 0 + (0 + Math_abs (TurfArea.ringArea (Math_sin lib) ring)).
Proof. reflexivity. Qed.

Lemma turf_area_not_minus (ring : list LonLat) :
  not_minus (turf_area lib [ring]).
Proof.
  rewrite turf_area_one_ring.
  apply add_not_minus; [apply zero_not_minus|].
  apply not_minus_not_negative.
  apply add_not_minus; [apply zero_not_minus|].
  apply not_minus_not_negative, abs_not_minus.
Qed.

Lemma area_update_few_positions (m : Measure)
  (positions : list Cartesian3.t) :
  areaClass (class m) = true ->
  (List.length positions < 3)%nat ->
  _updateLabelFunc lib build m positions
  = if _labels_isDestroyed m then Throw destroyed_object
    else Normal (set_labels [] m).
Proof.
  intros Hc Hlen. unfold _updateLabelFunc.
  assert (AreaMeasure_updateLabelFunc lib m positions
          = if _labels_isDestroyed m then Throw destroyed_object
            else Normal (set_labels [] m)) as H.
  { unfold AreaMeasure_updateLabelFunc, LabelCollection_removeAll.
    destruct (_labels_isDestroyed m); cbn [bind]; [reflexivity|].
    destruct (Nat.ltb_spec (List.length positions) 3) as [_|]; [|lia].
    reflexivity. }
  destruct (class m); try discriminate; exact H.
Qed.

Lemma distance_update_one_position (m : Measure) (p : Cartesian3.t) :
  distanceClass (class m) = true ->
  _updateLabelFunc lib build m [p]
  = if _labels_isDestroyed m then Throw destroyed_object
    else Normal (set_labels [{| position := p; labelStyle := _labelStyle m;
                                text := StartText |}] m).
Proof.
  intros Hc. unfold _updateLabelFunc.
  assert (DistanceMeasure_updateLabelFunc lib build m [p]
          = if _labels_isDestroyed m then Throw destroyed_object
            else Normal (set_labels
                           [{| position := p; labelStyle := _labelStyle m;
                               text := StartText |}] m)) as H.
  { unfold DistanceMeasure_updateLabelFunc, LabelCollection_removeAll.
    destruct (_labels_isDestroyed m) eqn:E; cbn [bind]; [reflexivity|].
    cbn [forEach]. unfold LabelCollection_add.
    cbn [_labels_isDestroyed set_labels]. rewrite E. cbn [bind].
    unfold DistanceMeasure_updateLabelTexts. cbn [List.length seq for_each].
    unfold labelTurn. cbn [_labels_isDestroyed set_labels]. rewrite E.
    reflexivity. }
  destruct (class m); try discriminate; exact H.
Qed.

(** C3, as the code has it.  With fewer than 3 points the update of an
    area session removes the labels and returns: no label is shown,
    nothing is thrown, and [getArea] is not called.  With 1 point the
    update of a distance session shows the start label alone.  (Both
    begin with [removeAll()], which throws when the label collection has
    been destroyed.)  [getArea] of [AreaMeasure] called on fewer than 3
    points does not return: its ring has fewer than 4 positions, and
    turf's [polygon] throws. *)
Theorem fewer_than_three_points (m : Measure)
  (positions : list Cartesian3.t) :
  (List.length positions < 3)%nat ->
  (areaClass (class m) = true ->
   _updateLabelFunc lib build m positions
   = if _labels_isDestroyed m then Throw destroyed_object
     else Normal (set_labels [] m))
  /\ (distanceClass (class m) = true ->
      forall p, positions = [p] ->
      _updateLabelFunc lib build m positions
      = if _labels_isDestroyed m then Throw destroyed_object
        else Normal (set_labels
                       [{| position := p; labelStyle := _labelStyle m;
                           text := StartText |}] m))
  /\ throws (AreaMeasure_getArea lib m positions).
Proof.
  intros Hlen. split; [|split].
  - intros Hc. now apply area_update_few_positions.
  - intros Hc p ->. now apply distance_update_one_position.
  - now apply getArea_few_positions.
Qed.

(** C7, as the code has it.  For 3 points or more, [getArea] of
    [AreaMeasure] hands turf the ring made of the vertices followed by the
    first vertex once more, and likewise for the vertices in reverse
    order.  The area returned is the absolute value of turf's sum over
    that ring: it is never below zero, and at least zero whenever it is a
    number.  turf adds the terms of a ring in the order of the ring, so
    the areas of the two orders are two sums of binary64 numbers taken in
    different orders: they need not be identical. *)
Theorem planar_area_of_closed_ring (m : Measure)
  (positions : list Cartesian3.t) (lonlats : list LonLat) :
  class m = AreaMeasure ->
  (3 <= List.length positions)%nat ->
  _cartesian2Lonlat m positions = Normal lonlats ->
  forallb comparable lonlats = true ->
  exists a b,
    getArea lib m positions = Normal a
    /\ a = turf_area lib [lonlats ++ firstn 1 lonlats]
    /\ a = 0 + (0 + Math_abs (TurfArea.ringArea (Math_sin lib)
                                (lonlats ++ firstn 1 lonlats)))
    /\ (a <? 0) = false
    /\ (is_nan a = false -> (0 <=? a) = true)
    /\ getArea lib m (rev positions) = Normal b
    /\ b = turf_area lib [rev lonlats ++ firstn 1 (rev lonlats)]
    /\ (b <? 0) = false
    /\ (is_nan b = false -> (0 <=? b) = true).
Proof.
  intros Hc Hlen E Hcmp.
  assert (forall ps, getArea lib m ps = AreaMeasure_getArea lib m ps) as Hg.
  { intros ps. unfold getArea. now rewrite Hc. }
  assert (forall ring, (turf_area lib [ring] <? 0) = false
                       /\ (is_nan (turf_area lib [ring]) = false ->
                           (0 <=? turf_area lib [ring]) = true)) as Hsign.
  { intros ring.
    pose proof (not_minus_not_negative _ (turf_area_not_minus ring)) as H.
    split; [now apply not_negative_ltb|now apply not_negative_leb]. }
  exists (turf_area lib [closedRing lonlats]),
         (turf_area lib [closedRing (rev lonlats)]).
  rewrite !Hg.
  split; [now apply getArea_closes_ring|].
  split; [reflexivity|]. split; [reflexivity|].
  split; [apply Hsign|]. split; [apply Hsign|].
  split.
  { apply getArea_closes_ring.
    - now rewrite length_rev.
    - now apply Array_map_rev.
    - rewrite forallb_forall in *. intros q Hq. apply Hcmp.
      now apply in_rev. }
  split; [reflexivity|]. split; apply Hsign.
Qed.

End PlanarArea.

Lemma fewer_than_three_points_witness :
  (List.length FlatScene.edge < 3)%nat
  /\ _updateLabelFunc FlatScene.lib Bundle (FlatScene.working AreaMeasure)
       FlatScene.edge
     = Normal (set_labels [] (FlatScene.working AreaMeasure)).
Proof.
  assert (List.length FlatScene.edge < 3)%nat
    as H by (cbn; lia).
  split; [exact H|].
  apply (proj1 (fewer_than_three_points FlatScene.lib Bundle
                  (FlatScene.working AreaMeasure) _ H)).
  reflexivity.
Defined.

(** C3 fails on [getArea] itself: called with two points, it throws. *)
Lemma getArea_of_two_points_throws :
  (List.length FlatScene.edge < 3)%nat
  /\ getArea FlatScene.lib (FlatScene.session AreaMeasure None)
       FlatScene.edge
     = Throw "Each LinearRing of a Polygon must have 4 or more Positions."
  /\ ~ returns (getArea FlatScene.lib (FlatScene.session AreaMeasure None)
                  FlatScene.edge).
Proof.
  assert (getArea FlatScene.lib (FlatScene.session AreaMeasure None)
            FlatScene.edge
          = Throw "Each LinearRing of a Polygon must have 4 or more Positions.")
    as H by (vm_compute; reflexivity).
  split; [cbn; lia|]. split; [exact H|].
  rewrite H. intros (a & Ha). discriminate.
Qed.

Lemma planar_area_of_closed_ring_witness :
  (3 <= List.length DegreeScene.triangle)%nat
  /\ exists a b,
      getArea DegreeScene.lib DegreeScene.session DegreeScene.triangle
      = Normal a
      /\ (a <? 0) = false
      /\ getArea DegreeScene.lib DegreeScene.session
           (rev DegreeScene.triangle)
         = Normal b
      /\ (b <? 0) = false.
Proof.
  assert (3 <= List.length DegreeScene.triangle)%nat as H by (cbn; lia).
  split; [exact H|].
  destruct (planar_area_of_closed_ring DegreeScene.lib DegreeScene.session
              DegreeScene.triangle DegreeScene.lonlats
              eq_refl H eq_refl eq_refl)
    as (a & b & Ha & _ & _ & Hpos & _ & Hb & _ & Hposb & _).
  exists a, b. repeat split; assumption.
Defined.

(** C7 fails on the triangle (0, 0), (1, 0), (3, 1): both areas are
    positive, and the area of the vertices in reverse order is the next
    double after the area of the vertices in the order given. *)
Lemma area_depends_on_the_winding :
  (3 <= List.length DegreeScene.triangle)%nat
  /\ getArea DegreeScene.lib DegreeScene.session DegreeScene.triangle
     = Normal 6195699951.035552
  /\ getArea DegreeScene.lib DegreeScene.session (rev DegreeScene.triangle)
     = Normal 6195699951.035553
  /\ (6195699951.035552 =? 6195699951.035553) = false
  /\ getArea DegreeScene.lib DegreeScene.session (rev DegreeScene.triangle)
     <> getArea DegreeScene.lib DegreeScene.session DegreeScene.triangle.
Proof.
  assert (getArea DegreeScene.lib DegreeScene.session DegreeScene.triangle
          = Normal 6195699951.035552) as H1 by (vm_compute; reflexivity).
  assert (getArea DegreeScene.lib DegreeScene.session
            (rev DegreeScene.triangle)
          = Normal 6195699951.035553) as H2 by (vm_compute; reflexivity).
  split; [cbn; lia|]. split; [exact H1|]. split; [exact H2|].
  split; [vm_compute; reflexivity|].
  rewrite H1, H2. discriminate.
Qed.

(** ** The planar distance engine: running totals *)

Section UpdateNth.
Context {A : Type}.

Lemma update_nth_length (i : nat) (v : A) (l : list A) :
  List.length (update_nth i v l) = List.length l.
Proof.
  revert i. induction l as [|h t IH]; intros [|i]; cbn; auto.
Qed.

Lemma nth_error_update_nth_same (i : nat) (v : A) (l : list A) :
  (i < List.length l)%nat -> nth_error (update_nth i v l) i = Some v.
Proof.
  revert i. induction l as [|h t IH]; intros [|i] H; cbn in *;
    try lia; [reflexivity|]. apply IH. lia.
Qed.

Lemma nth_error_update_nth_other (i j : nat) (v : A) (l : list A) :
  i <> j -> nth_error (update_nth i v l) j = nth_error l j.
Proof.
  revert i j. induction l as [|h t IH]; intros [|i] [|j] H; cbn;
    try reflexivity; try congruence.
  apply IH. congruence.
Qed.

Lemma nth_error_in_range (i : nat) (l : list A) :
  (i < List.length l)%nat -> exists a, nth_error l i = Some a.
Proof.
  intros H. destruct (nth_error l i) eqn:E; [eauto|].
  apply nth_error_None in E. lia.
Qed.
End UpdateNth.

Section RunningTotals.
Variable lib : Lib.
Variable build : Build.
Variable m : Measure.
Variable positions : list Cartesian3.t.

Local Abbreviation num := (List.length positions).
Local Abbreviation inc := (increment lib m positions).
Local Abbreviation total := (runningTotal lib m positions).

Section Loop.
(** The session the loop runs on: [m] with its fresh labels. *)
Variable M : Measure.
Hypothesis same_distance :
  forall a b, getDistance lib M a b = getDistance lib m a b.
Hypothesis live : _labels_isDestroyed M = false.

Lemma labelTurn_segment (i' : nat) (t : Totals) :
  (S i' < num)%nat ->
  List.length (labels t) = num ->
  exists label height unitedDistance unitedNewDis axis unitedZ,
    nth_error (labels t) (S i') = Some label
    /\ labelTurn lib build M positions num (S i') t
       = Normal
           {| distance := toFixed2 (distance t + inc (S i'));
              unitedAxisDis := axis;
              labels :=
                update_nth (S i')
                  (set_text label
                     (DistanceText (S i' =? num - 1)%nat
                        (toFixed2 (distance t + inc (S i')))
                        unitedDistance height unitedZ
                        (if (1 <? S i')%nat
                         then Some (inc (S i'), unitedNewDis)
                         else None)))
                  (labels t) |}.
Proof.
  intros Hi Hl.
  destruct (nth_error_in_range (S i') (labels t)) as (label & Hlab);
    [lia|].
  destruct (nth_error_in_range i' positions) as (a & Ha); [lia|].
  destruct (nth_error_in_range (S i') positions) as (b & Hb); [lia|].
  unfold labelTurn. rewrite live, Hlab, Ha, Hb. cbv zeta.
  destruct (unitedAxisDis t) as [[a0 a1] a2].
  unfold increment. rewrite Ha, Hb, same_distance.
  do 6 eexists. split; reflexivity.
Qed.

Lemma loop_from (n i : nat) (t : Totals) :
  (1 <= i)%nat -> (i + n = num)%nat ->
  List.length (labels t) = num ->
  distance t = total (i - 1)%nat ->
  exists t',
    for_each (seq i n) (labelTurn lib build M positions num) t = Normal t'
    /\ List.length (labels t') = num
    /\ (forall j, (j < i)%nat ->
                  nth_error (labels t') j = nth_error (labels t) j)
    /\ (forall j, (i <= j < num)%nat ->
                  exists label,
                    nth_error (labels t') j = Some label
                    /\ publishes label (j =? num - 1)%nat (total j)
                         (if (1 <? j)%nat then Some (inc j) else None)).
Proof.
  revert i t. induction n as [|n IH]; intros i t Hi Hn Hl Hd.
  - exists t. cbn. repeat split; try assumption. intros j Hj. lia.
  - destruct i as [|i']; [lia|].
    destruct (labelTurn_segment i' t) as
      (label & height & ud & und & axis & uz & Hlab & Hturn);
      [lia|exact Hl|].
    cbn [seq for_each]. rewrite Hturn. cbn [bind].
    replace (S i' - 1)%nat with i' in Hd by lia.
    set (t1 := {| distance := _; unitedAxisDis := _; labels := _ |}).
    destruct (IH (S (S i')) t1) as (t' & Hloop & Hl' & Hkeep & Hpub).
    + lia.
    + lia.
    + subst t1. cbn [labels]. now rewrite update_nth_length.
    + subst t1. cbn [distance]. rewrite Hd.
      replace (S (S i') - 1)%nat with (S i') by lia. reflexivity.
    + exists t'. split; [exact Hloop|]. split; [exact Hl'|]. split.
      * intros j Hj. rewrite Hkeep by lia. subst t1. cbn [labels].
        apply nth_error_update_nth_other. lia.
      * intros j Hj.
        destruct (Nat.eq_dec j (S i')) as [->|Hne];
          [|apply Hpub; lia].
        rewrite Hkeep by lia. subst t1. cbn [labels].
        rewrite nth_error_update_nth_same by lia.
        eexists. split; [reflexivity|].
        unfold publishes. cbn [text set_text]. rewrite Hd.
        change (toFixed2 (total i' + inc (S i'))) with (total (S i')).
        exists ud, height, uz.
        destruct (1 <? S i')%nat; [exists und|]; reflexivity.
Qed.

Lemma loop_from_start (l : LabelCollection) :
  List.length l = num ->
  exists t',
    for_each (seq 0 num) (labelTurn lib build M positions num)
             {| distance := 0; unitedAxisDis := (0, 0, 0); labels := l |}
    = Normal t'
    /\ (forall j, (1 <= j < num)%nat ->
                  exists label,
                    nth_error (labels t') j = Some label
                    /\ publishes label (j =? num - 1)%nat (total j)
                         (if (1 <? j)%nat then Some (inc j) else None)).
Proof.
  intros Hl. destruct num as [|n] eqn:En.
  - eexists. split; [reflexivity|]. intros j Hj. lia.
  - destruct (nth_error_in_range 0 l) as (label & Hlab); [lia|].
    cbn [seq for_each]. unfold labelTurn at 1. cbn [labels].
    rewrite live, Hlab. cbn [bind distance unitedAxisDis].
    rewrite <- En.
    destruct (loop_from n 1
                {| distance := 0; unitedAxisDis := (0, 0, 0);
                   labels := update_nth 0 (set_text label StartText) l |})
      as (t' & Hloop & _ & _ & Hpub).
    + lia.
    + lia.
    + cbn [labels]. rewrite update_nth_length. lia.
    + reflexivity.
    + exists t'. split; [exact Hloop|]. exact Hpub.
Qed.
End Loop.

Lemma set_labels_twice (l l' : LabelCollection) (m1 : Measure) :
  set_labels l (set_labels l' m1) = set_labels l m1.
Proof. reflexivity. Qed.

Lemma fresh_labels (l : list Cartesian3.t) (m1 : Measure) :
  _labels_isDestroyed m1 = false ->
  forEach l
    (fun position_ acc =>
       LabelCollection_add
         {| position := position_; labelStyle := _labelStyle acc;
            text := NoText |} acc)
    m1
  = Normal
      (set_labels
         (_labels m1
          ++ map (fun position_ =>
                    {| position := position_; labelStyle := _labelStyle m1;
                       text := NoText |}) l)
         m1).
Proof.
  revert m1. induction l as [|p l IH]; intros m1 Hlive; cbn [forEach map].
  - rewrite app_nil_r. destruct m1; reflexivity.
  - unfold LabelCollection_add at 1. rewrite Hlive. cbn [bind].
    rewrite IH by exact Hlive. cbn [_labels set_labels _labelStyle].
    rewrite <- app_assoc. reflexivity.
Qed.

Lemma update_on_destroyed_labels :
  distanceClass (class m) = true ->
  _labels_isDestroyed m = true ->
  _updateLabelFunc lib build m positions = Throw destroyed_object.
Proof.
  intros Hc Hd.
  assert (DistanceMeasure_updateLabelFunc lib build m positions
          = Throw destroyed_object) as H.
  { unfold DistanceMeasure_updateLabelFunc, LabelCollection_removeAll.
    now rewrite Hd. }
  unfold _updateLabelFunc. destruct (class m); try discriminate; exact H.
Qed.

(** C4.  In the update of a distance session every segment's distance is
    rounded to two decimals before it is added, and the total a label
    shows is the sum of these rounded increments up to its vertex (the
    sum itself kept on two decimals after each addition); the increment
    shown from the third label on is the rounded one.  (On a label
    collection that has been destroyed the update throws at [removeAll()]
    and shows nothing.) *)
Theorem totals_sum_rounded_increments (i : nat) :
  distanceClass (class m) = true ->
  (1 <= i < List.length positions)%nat ->
  if _labels_isDestroyed m
  then _updateLabelFunc lib build m positions = Throw destroyed_object
  else
  exists m',
    _updateLabelFunc lib build m positions = Normal m'
    /\ (exists label,
          nth_error (_labels m') i = Some label
          /\ publishes label (i =? List.length positions - 1)%nat
               (runningTotal lib m positions i)
               (if (1 <? i)%nat then Some (increment lib m positions i)
                else None))
    /\ (exists previous current,
          nth_error positions (i - 1) = Some previous
          /\ nth_error positions i = Some current
          /\ increment lib m positions i
             = toFixed2 (getDistance lib m previous current))
    /\ runningTotal lib m positions i
       = toFixed2 (runningTotal lib m positions (i - 1)
                   + increment lib m positions i).
Proof.
  intros Hc Hi.
  destruct (_labels_isDestroyed m) eqn:Hlive;
    [now apply update_on_destroyed_labels|].
  assert (exists previous current,
             nth_error positions (i - 1) = Some previous
             /\ nth_error positions i = Some current
             /\ increment lib m positions i
                = toFixed2 (getDistance lib m previous current)) as Hinc.
  { destruct i as [|i']; [lia|].
    replace (S i' - 1)%nat with i' by lia.
    destruct (nth_error_in_range i' positions) as (a & Ha); [lia|].
    destruct (nth_error_in_range (S i') positions) as (b & Hb); [lia|].
    exists a, b. unfold increment. rewrite Ha, Hb. repeat split. }
  assert (runningTotal lib m positions i
          = toFixed2 (runningTotal lib m positions (i - 1)
                      + increment lib m positions i)) as Htot.
  { destruct i as [|i']; [lia|].
    replace (S i' - 1)%nat with i' by lia. reflexivity. }
  assert (_updateLabelFunc lib build m positions
          = DistanceMeasure_updateLabelFunc lib build m positions) as ->.
  { unfold _updateLabelFunc. destruct (class m); try discriminate;
      reflexivity. }
  unfold DistanceMeasure_updateLabelFunc, LabelCollection_removeAll.
  rewrite Hlive. cbn [bind].
  rewrite fresh_labels by exact Hlive.
  cbn [bind _labels set_labels _labelStyle app].
  rewrite set_labels_twice.
  set (M := set_labels _ m).
  unfold DistanceMeasure_updateLabelTexts. cbv zeta.
  destruct (loop_from_start M (fun a b => eq_refl) Hlive (_labels M))
    as (t' & Hloop & Hpub).
  { subst M. cbn [_labels set_labels]. now rewrite length_map. }
  rewrite Hloop. cbn [bind].
  eexists. split; [reflexivity|]. cbn [_labels set_labels].
  split; [apply Hpub; exact Hi|]. split; assumption.
Qed.

End RunningTotals.

Lemma totals_sum_rounded_increments_witness :
  (1 <= 2 < List.length FlatScene.triangle)%nat
  /\ exists m',
      _updateLabelFunc FlatScene.lib Bundle
        (FlatScene.session DistanceMeasure None) FlatScene.triangle
      = Normal m'
      /\ exists label,
          nth_error (_labels m') 2 = Some label
          /\ publishes label true
               (runningTotal FlatScene.lib
                  (FlatScene.session DistanceMeasure None) FlatScene.triangle 2)
               (Some (increment FlatScene.lib
                        (FlatScene.session DistanceMeasure None)
                        FlatScene.triangle 2)).
Proof.
  assert (1 <= 2 < List.length FlatScene.triangle)%nat as H by (cbn; lia).
  split; [exact H|].
  destruct (totals_sum_rounded_increments FlatScene.lib Bundle
              (FlatScene.session DistanceMeasure None) FlatScene.triangle 2
              eq_refl H) as (m' & Hm & Hlabel & _).
  exists m'. split; [exact Hm|exact Hlabel].
Defined.

(** The totals of the triangle (0,0,0), (3,0,0), (3,4,0): 3, then 7. *)
Example triangle_totals :
  map (runningTotal FlatScene.lib (FlatScene.session DistanceMeasure None)
         FlatScene.triangle)
      [1; 2]%nat
  = [3; 7].
Proof. vm_compute. reflexivity. Qed.

(** Three segments of 1/256 m each: every increment rounds to 0, so the
    total shown is 0, where the sum of the distances, 3/256, would round
    to 0.01. *)
Example total_is_not_the_rounded_sum :
  let d := 1 / 256 in
  let path := [Cartesian3.mk 0 0 0; Cartesian3.mk d 0 0;
               Cartesian3.mk (2 * d) 0 0; Cartesian3.mk (3 * d) 0 0] in
  runningTotal FlatScene.lib (FlatScene.session DistanceMeasure None) path 3
  = 0
  /\ toFixed2 (d + d + d) = 1 / 100.
Proof. vm_compute. split; reflexivity. Qed.

(** Segments of 0.1 m and 0.2 m: the total shown is the double nearest to
    0.3; the binary sum of the two increments is the next double. *)
Example total_stays_on_two_decimals :
  let path := [Cartesian3.mk 0 0 0; Cartesian3.mk (1 / 10) 0 0;
               Cartesian3.mk (1 / 10) (2 / 10) 0] in
  let m := FlatScene.session DistanceMeasure None in
  increment FlatScene.lib m path 1 = 1 / 10
  /\ increment FlatScene.lib m path 2 = 2 / 10
  /\ runningTotal FlatScene.lib m path 2 = 3 / 10
  /\ 1 / 10 + 2 / 10 = next_up (3 / 10).
Proof. vm_compute. repeat split; reflexivity. Qed.

(** * Further properties *)

(** ** Distances *)

Section Distances.
Variable lib : Lib.

Lemma distance_symmetric (p q : Cartesian3.t) :
  Cartesian3.distance p q = Cartesian3.distance q p.
Proof.
  unfold Cartesian3.distance, Cartesian3.magnitude,
    Cartesian3.magnitudeSquared, Cartesian3.subtract.
  cbn [Cartesian3.x Cartesian3.y Cartesian3.z].
  fold (Math_pow2 (Cartesian3.x p - Cartesian3.x q)).
  fold (Math_pow2 (Cartesian3.y p - Cartesian3.y q)).
  fold (Math_pow2 (Cartesian3.z p - Cartesian3.z q)).
  rewrite (square_of_difference (Cartesian3.x p)),
    (square_of_difference (Cartesian3.y p)),
    (square_of_difference (Cartesian3.z p)).
  reflexivity.
Qed.

(** X6.  The straight distance and the height difference of two points do
    not depend on the order of the points, whatever their coordinates. *)
Theorem planar_distance_symmetric (p q : Cartesian3.t) :
  DistanceMeasure_getDistance p q = DistanceMeasure_getDistance q p
  /\ getCart3Height lib p q = getCart3Height lib q p.
Proof.
  split; [apply distance_symmetric|].
  unfold getCart3Height. cbv zeta. apply abs_of_difference.
Qed.

(** X14.  When the surface distance of the ellipsoid does not depend on
    the order of its end points, neither does the surface length of a pair
    of samples. *)
Theorem surface_length_symmetric (viewer : Viewer) (a b : Cartesian2.t) :
  (forall c d, EllipsoidGeodesic_surfaceDistance lib c d
               = EllipsoidGeodesic_surfaceDistance lib d c) ->
  _calculateDetailSurfaceLength lib viewer a b
  = _calculateDetailSurfaceLength lib viewer b a.
Proof.
  intros H. unfold _calculateDetailSurfaceLength. cbv zeta.
  destruct (pickCartesian3 viewer a) as [pa|],
    (pickCartesian3 viewer b) as [pb|]; try reflexivity.
  now rewrite H, square_of_difference.
Qed.

Lemma detail_not_negative (viewer : Viewer) (a b : Cartesian2.t) :
  not_negative (_calculateDetailSurfaceLength lib viewer a b).
Proof.
  unfold _calculateDetailSurfaceLength. cbv zeta.
  destruct (pickCartesian3 viewer a), (pickCartesian3 viewer b);
    try reflexivity.
  apply sqrt_not_negative.
Qed.

Lemma surfaceDistance_not_minus (viewer : Viewer) (splitNum : nat)
  (startPoint endPoint : Cartesian2.t) :
  not_minus (_calculateSurfaceDistance lib viewer splitNum startPoint endPoint).
Proof.
  rewrite surfaceDistance_sum. cbv zeta.
  apply (sum_not_minus
           (fun ab => _calculateDetailSurfaceLength lib viewer (snd ab) (fst ab))).
  - exact zero_not_minus.
  - intros ab _. apply detail_not_negative.
Qed.

Lemma getDistance_not_negative (m : Measure) (p q : Cartesian3.t) :
  not_negative (getDistance lib m p q).
Proof.
  unfold getDistance.
  destruct (class m);
    try apply sqrt_not_negative.
  apply not_minus_not_negative, surfaceDistance_not_minus.
Qed.

(** X7.  No distance is negative: [x < 0] is false for the straight
    distance, for the surface length of a pair of samples, for the surface
    distance of a segment, and for [getDistance] of every class. *)
Theorem distances_not_negative (viewer : Viewer) (m : Measure)
  (p q : Cartesian3.t) (splitNum : nat) (a b : Cartesian2.t) :
  (DistanceMeasure_getDistance p q <? 0) = false
  /\ (_calculateDetailSurfaceLength lib viewer a b <? 0) = false
  /\ (_calculateSurfaceDistance lib viewer splitNum a b <? 0) = false
  /\ (getDistance lib m p q <? 0) = false.
Proof.
  repeat split; apply not_negative_ltb.
  - apply sqrt_not_negative.
  - apply detail_not_negative.
  - apply not_minus_not_negative, surfaceDistance_not_minus.
  - apply getDistance_not_negative.
Qed.

(** X8.  The samples without terrain are dropped: the surface distance is
    the sum of the surface lengths over the pairs of neighbouring samples
    that both have terrain under them, and it is 0 when there is no such
    pair. *)
Theorem failed_picks_are_dropped (viewer : Viewer) (splitNum : nat)
  (startPoint endPoint : Cartesian2.t) :
  let points := sampleWindowPoints splitNum startPoint endPoint in
  let picked := filter (bothPicked viewer) (combine points (tl points)) in
  _calculateSurfaceDistance lib viewer splitNum startPoint endPoint
  = fold_left
      (fun resultDistance ab =>
         resultDistance
         + _calculateDetailSurfaceLength lib viewer (snd ab) (fst ab))
      picked 0
  /\ (picked = [] ->
      _calculateSurfaceDistance lib viewer splitNum startPoint endPoint = 0).
Proof.
  cbv zeta.
  assert (forall l acc, not_minus acc ->
            fold_left
              (fun r ab => r + _calculateDetailSurfaceLength lib viewer
                                 (snd ab) (fst ab)) l acc
            = fold_left
                (fun r ab => r + _calculateDetailSurfaceLength lib viewer
                                   (snd ab) (fst ab))
                (filter (bothPicked viewer) l) acc) as H.
  { induction l as [|ab l IH]; intros acc Hacc; [reflexivity|].
    cbn [fold_left filter]. unfold bothPicked at 1.
    destruct (pickFails viewer (snd ab) || pickFails viewer (fst ab)) eqn:E;
      cbn [negb].
    - rewrite (failed_pick_zero lib viewer _ _ E), (add_zero_r _ Hacc).
      now apply IH.
    - cbn [fold_left]. apply IH.
      apply add_not_minus; [exact Hacc|apply detail_not_negative]. }
  rewrite surfaceDistance_sum. cbv zeta.
  rewrite (H _ 0 zero_not_minus). split; [reflexivity|].
  intros ->. reflexivity.
Qed.

End Distances.

Lemma FlatScene_surfaceDistance_symmetric (c d : Cartographic.t) :
  EllipsoidGeodesic_surfaceDistance FlatScene.lib c d
  = EllipsoidGeodesic_surfaceDistance FlatScene.lib d c.
Proof.
  cbn [EllipsoidGeodesic_surfaceDistance FlatScene.lib].
  unfold FlatScene.surfaceDistance.
  now rewrite (square_of_difference (Cartographic.longitude c)),
    (square_of_difference (Cartographic.latitude c)).
Qed.

Lemma surface_length_symmetric_witness :
  _calculateDetailSurfaceLength FlatScene.lib FlatScene.viewer
    (Cartesian2.mk 3 4) (Cartesian2.mk 0 0)
  = _calculateDetailSurfaceLength FlatScene.lib FlatScene.viewer
      (Cartesian2.mk 0 0) (Cartesian2.mk 3 4).
Proof.
  exact (surface_length_symmetric FlatScene.lib FlatScene.viewer
           (Cartesian2.mk 3 4) (Cartesian2.mk 0 0)
           FlatScene_surfaceDistance_symmetric).
Defined.

(** ** Degenerate segments *)

Section Degenerate.

Lemma nan_add (x : number) : nan + x = nan.
Proof.
  apply Prim2SF_inj. rewrite add_spec. reflexivity.
Qed.

Lemma not_positive_over_zero (interval : number) :
  (0 <? interval) = false -> interval / 0 * 0 = nan.
Proof.
  rewrite ltb_spec. intros H. apply Prim2SF_inj.
  rewrite mul_spec, div_spec.
  change (Prim2SF 0) with (S754_zero false) in *.
  change (Prim2SF nan) with S754_nan.
  destruct (Prim2SF interval) as [s|s| |s m e]; try destruct s;
    try reflexivity; discriminate.
Qed.

(** X10.  On a segment whose ends are the same point,
    [_findWindowPositionByPixelInterval] never returns that point: it gives
    the window origin for a positive distance and (NaN, NaN) for any
    other. *)
Theorem degenerate_segment (p : Cartesian2.t) (interval : number) :
  finite2 p ->
  _findWindowPositionByPixelInterval p p interval
  = if 0 <? interval then Cartesian2.mk 0 0 else Cartesian2.mk nan nan.
Proof.
  intros (Hx & Hy). unfold _findWindowPositionByPixelInterval. cbv zeta.
  assert (screenLength p p = 0) as ->.
  { unfold screenLength. rewrite (sub_diag _ Hx), (sub_diag _ Hy).
    reflexivity. }
  destruct (0 <? interval) eqn:E; [reflexivity|].
  rewrite (sub_diag _ Hx), (sub_diag _ Hy).
  rewrite (not_positive_over_zero _ E), !nan_add. reflexivity.
Qed.

End Degenerate.

Lemma degenerate_segment_witness :
  finite2 (Cartesian2.mk 3 4)
  /\ _findWindowPositionByPixelInterval (Cartesian2.mk 3 4) (Cartesian2.mk 3 4)
       0
     = Cartesian2.mk nan nan.
Proof.
  assert (finite2 (Cartesian2.mk 3 4)) as H by (split; reflexivity).
  split; [exact H|].
  exact (degenerate_segment (Cartesian2.mk 3 4) 0 H).
Defined.

(** ** Sessions over time *)

Section Sessions.
Variable lib : Lib.
Variable build : Build.

Lemma set_labels_same (m : Measure) : set_labels (_labels m) m = m.
Proof. destruct m; reflexivity. Qed.

Lemma distance_update_sets_labels (m m' : Measure)
  (positions : list Cartesian3.t) :
  DistanceMeasure_updateLabelFunc lib build m positions = Normal m' ->
  exists l, m' = set_labels l m.
Proof.
  unfold DistanceMeasure_updateLabelFunc, LabelCollection_removeAll.
  destruct (_labels_isDestroyed m) eqn:E; cbn [bind]; [discriminate|].
  rewrite fresh_labels by exact E. cbn [bind].
  unfold DistanceMeasure_updateLabelTexts. cbv zeta.
  destruct (for_each _ _ _) as [t|e]; cbn [bind]; [|discriminate].
  intros [= <-]. eexists. reflexivity.
Qed.

Lemma area_update_sets_labels (m m' : Measure)
  (positions : list Cartesian3.t) :
  AreaMeasure_updateLabelFunc lib m positions = Normal m' ->
  exists l, m' = set_labels l m.
Proof.
  unfold AreaMeasure_updateLabelFunc, LabelCollection_removeAll.
  destruct (_labels_isDestroyed m) eqn:E; cbn [bind]; [discriminate|].
  destruct (List.length positions <? 3)%nat.
  - intros [= <-]. eexists. reflexivity.
  - unfold LabelCollection_add. cbn [_labels_isDestroyed set_labels].
    rewrite E. cbn [bind].
    unfold AreaMeasure_updateLabelTexts, LabelCollection_get.
    cbn [_labels_isDestroyed set_labels]. rewrite E. cbn [bind].
    destruct (getArea _ _ _) as [a|e]; cbn [bind]; [|discriminate].
    destruct (nth_error _ 0) as [label|]; [|discriminate].
    intros [= <-]. eexists. reflexivity.
Qed.

Lemma update_sets_labels (m m' : Measure) (positions : list Cartesian3.t) :
  _updateLabelFunc lib build m positions = Normal m' ->
  exists l, m' = set_labels l m.
Proof.
  unfold _updateLabelFunc. destruct (class m).
  - intros [= <-]. exists (_labels m). symmetry. apply set_labels_same.
  - apply area_update_sets_labels.
  - apply area_update_sets_labels.
  - apply distance_update_sets_labels.
  - apply distance_update_sets_labels.
Qed.



(** X2.  On a live label collection, [end()] then [start()] leaves a
    session of any class but the base one [WORKING], without labels, with
    a drawer that was reset and then started. *)
Theorem end_then_start (m : Measure) (style_ : GraphicsOptions) :
  class m <> BaseMeasure ->
  _labels_isDestroyed m = false ->
  exists m1 m2 o rest,
    end_ m = Returned m1
    /\ start style_ m1 = Returned m2
    /\ _status m2 = WORKING
    /\ _labels m2 = []
    /\ received (drawer m2) = DrawerStart o :: DrawerReset :: rest
    /\ type o = (if areaClass (class m) then POLYGON else POLYLINE)
    /\ dynamicOptions o
       = (style_, match class m with
                  | DistanceMeasure => Some false
                  | DistanceSurfaceMeasure => Some true
                  | _ => None
                  end).
Proof.
  intros Hc Hlive.
  destruct (end_returns m Hlive)
    as (m1 & He & Hs & Hl & Ho & Hcl & Hd & Hlive1 & _).
  exists m1.
  destruct (areaClass (class m)) eqn:Ha.
  - destruct (start_restarting style_ m1) as (m2 & Hst & Hw & Hl2 & Hd2);
      [now rewrite Hcl|exact Hlive1|].
    exists m2. eexists. eexists.
    split; [exact He|]. split; [exact Hst|]. split; [exact Hw|].
    split; [exact Hl2|]. split; [exact Hd2|]. split; [reflexivity|].
    cbn [dynamicOptions]. destruct (class m); try discriminate; reflexivity.
  - assert (exists clamp,
               start style_ m1 = _start POLYLINE style_ clamp m1
               /\ clamp = match class m with
                          | DistanceMeasure => Some false
                          | DistanceSurfaceMeasure => Some true
                          | _ => None
                          end) as (clamp & Hst & Hclamp).
    { unfold start. rewrite Hcl.
      destruct (class m); try discriminate; try congruence;
        eexists; split; reflexivity. }
    destruct (_start_in_INIT POLYLINE style_ clamp m1 Hs)
      as (m2 & Hst2 & Hw & Hl2 & Hd2).
    exists m2. eexists. eexists.
    split; [exact He|]. split; [now rewrite Hst|]. split; [exact Hw|].
    split; [congruence|]. split; [rewrite Hd2, Hd; reflexivity|].
    split; [reflexivity|]. cbn [dynamicOptions]. now rewrite Hclamp.
Qed.

Lemma call_keeps_consistent (m0 m : Measure) (op : Operation) :
  consistent m0 m -> consistent m0 (after (call op m)).
Proof.
  unfold consistent, drawing.
  intros (Hc & Hv & Hu & Hn & Hy & Ho & Hw & Hl & Hb & Ht & Hx).
  destruct (_labels_isDestroyed m) eqn:Ed.
  - (* a destroyed collection: the session is in DESTROY *)
    specialize (Hx eq_refl).
    destruct op as [style_| |];
      unfold call, start, destroy, end_, _start, LabelCollection_removeAll;
      destruct (class m) eqn:Ecl;
      cbn; rewrite ?Ecl, ?Hx, ?Ed; cbn; rewrite ?Ecl, ?Hx, ?Ed;
      rewrite ?Hx in *;
      repeat split; try assumption; try tauto; try congruence;
      try discriminate.
  - destruct op as [style_| |];
      unfold call, start, destroy, end_, _start, LabelCollection_removeAll,
        PrimitiveCollection_remove, LabelCollection_destroy;
      destruct (class m) eqn:Ecl; destruct (_status m) eqn:Es;
      destruct (isDestroyed (_viewer m)) eqn:Ev;
      destruct (primitives_labels m) eqn:Ep;
      destruct (destroyPrimitives (_viewer m)) eqn:Eq;
      cbn; rewrite ?Ecl, ?Es, ?Ed, ?Ev, ?Ep, ?Eq; cbn;
      rewrite ?Ecl, ?Es, ?Ed, ?Ev, ?Ep, ?Eq; cbn; rewrite ?Ed; cbn;
      repeat split; try assumption; try tauto; try congruence;
      try discriminate.
Qed.

(** X1.  Along the life of a session made by the constructor, whatever is
    called, returning or throwing, and whatever reports of the drawer
    return: the class, the viewer, the
    units, [splitNum], the label style and the [onEnd] callback never
    change; the drawer is drawing exactly when the session is [WORKING];
    a session that is not [WORKING] has no label; a session of the base
    class is never [WORKING]; a destroyed session has its tooltip
    destroyed; and the label collection is destroyed in the [DESTROY]
    state only. *)
Theorem session_stays_consistent (c : Class) (v : Viewer)
  (options : MeasureOptions) (m0 m : Measure) :
  constructor lib c (Some v) options = Normal m0 ->
  reachable lib build m0 m ->
  consistent m0 m.
Proof.
  intros H0 Hr. induction Hr as [|op m _ IH|ps m m' _ IH Hs Hup].
  - injection H0 as <-. unfold consistent, drawing. cbn.
    repeat split; try tauto; try congruence; try discriminate.
  - exact (call_keeps_consistent m0 m op IH).
  - destruct (update_sets_labels m m' ps Hup) as (l & ->).
    unfold consistent in *. cbn [class _viewer _units _splitNum _labelStyle
      _onEnd _status drawer _labels mouseTooltip set_labels
      _labels_isDestroyed].
    destruct IH as (Hc & Hv & Hu & Hn & Hy & Ho & Hw & Hl & Hb & Ht & Hx).
    repeat split; try tauto; try congruence.
Qed.

Lemma call_on_destroyed (m : Measure) (op : Operation) :
  _status m = DESTROY -> _labels_isDestroyed m = true ->
  _status (after (call op m)) = DESTROY
  /\ _labels_isDestroyed (after (call op m)) = true.
Proof.
  intros Hs Hd.
  destruct op as [style_| |]; cbn [call].
  - destruct (areaClass (class m)) eqn:Hc.
    + destruct (start_refused style_ m Hc Hd) as (m' & -> & H1 & _ & H2 & _).
      cbn [after]. split; congruence.
    + rewrite start_guarded; [now split|exact Hc|congruence].
  - destruct (end_refused m Hd) as (m' & -> & H1 & _ & H2 & _).
    cbn [after]. split; congruence.
  - destruct (destroy_refused m Hd) as (m' & -> & H1 & _ & H2 & _).
    cbn [after]. split; congruence.
Qed.

Lemma run_on_destroyed (ops : list Operation) (m : Measure) :
  _status m = DESTROY -> _labels_isDestroyed m = true ->
  _status (run ops m) = DESTROY.
Proof.
  revert m. induction ops as [|op ops IH]; intros m Hs Hd; cbn [run].
  - exact Hs.
  - destruct (call_on_destroyed m op Hs Hd) as [Hs' Hd']. now apply IH.
Qed.

(** X19.  On a live viewer whose scene holds the label collection and
    destroys what it removes, [destroy()] is final: whatever is called
    afterwards, the session stays destroyed. *)
Theorem destroy_is_final (m : Measure) (ops : list Operation) :
  _labels_isDestroyed m = false ->
  sceneOwnsLabels m = true ->
  destroyed (run ops (after (destroy m))) = true.
Proof.
  intros Hlive Hown.
  destruct (destroy_returns m Hlive) as (d & -> & Hs & Hd).
  rewrite Hown in Hd. cbn [after].
  unfold destroyed. now rewrite (run_on_destroyed ops d Hs Hd).
Qed.

End Sessions.

(** ** The labels of a distance session *)

Section DistanceLabels.
Variable lib : Lib.
Variable build : Build.

Lemma binary_normalize_not_minus (n : Z) :
  (0 <= n)%Z -> SFnot_minus (binary_normalize prec emax n 0 false) = true.
Proof.
  destruct n; [reflexivity| |lia]. intros _. apply binary_round_plus.
Qed.

Lemma SF2Prim_not_minus (f : spec_float) :
  SFnot_minus f = true -> not_minus (SF2Prim f).
Proof.
  unfold not_minus.
  destruct f as [s|s| |s m e]; try destruct s; try discriminate;
    try reflexivity.
  intros _. unfold SF2Prim. rewrite Z_ldexp_spec, of_uint63_spec.
  generalize (binary_normalize_not_minus _
                (proj1 (Uint63.to_Z_bounded (Uint63.of_Z (Z.pos m))))).
  destruct (binary_normalize _ _ _ _ _) as [s|s| |s m' e'];
    try destruct s; try discriminate; try reflexivity.
  intros _. unfold SFldexp. apply binary_round_plus.
Qed.

Lemma parse_hundredths_not_minus (n : Z) : not_minus (parse_hundredths n).
Proof.
  destruct n; try reflexivity. unfold parse_hundredths.
  apply SF2Prim_not_minus. unfold SFdiv.
  destruct (SFdiv_core_binary _ _ _ _ _ _) as [[mz ez] lz].
  apply binary_round_aux_plus.
Qed.

Lemma toFixed2_not_negative (x : number) :
  not_negative x -> not_negative (toFixed2 x).
Proof.
  intros H. unfold toFixed2. unfold not_negative in H.
  destruct (Prim2SF x) as [s|s| |s m e] eqn:E.
  - reflexivity.
  - unfold not_negative. now rewrite E.
  - unfold not_negative. now rewrite E.
  - destruct (1e21 <=? PrimFloat.abs x).
    + unfold not_negative. now rewrite E.
    + destruct s; [discriminate|].
      apply not_minus_not_negative, parse_hundredths_not_minus.
Qed.

Lemma add_not_negative (x y : number) :
  not_negative x -> not_negative y -> not_negative (x + y).
Proof.
  unfold not_negative. rewrite add_spec. unfold SF64add, SFadd.
  destruct (Prim2SF x) as [sx|sx| |sx mx ex]; try destruct sx;
    destruct (Prim2SF y) as [sy|sy| |sy my ey]; try destruct sy;
    cbn [SFnot_negative]; try congruence; intros _ _.
  cbn [cond_Zopp].
  change (Z.pos ?a + Z.pos ?b)%Z with (Z.pos (a + b)).
  cbn [binary_normalize].
  apply SFnot_minus_not_negative, binary_round_plus.
Qed.

Lemma increment_not_negative (m : Measure) (positions : list Cartesian3.t)
  (i : nat) :
  not_negative (increment lib m positions i).
Proof.
  unfold increment. destruct i as [|i']; [reflexivity|].
  destruct (nth_error positions i'), (nth_error positions (S i'));
    try reflexivity.
  apply toFixed2_not_negative, (getDistance_not_negative lib).
Qed.

Lemma runningTotal_not_negative (m : Measure)
  (positions : list Cartesian3.t) (i : nat) :
  not_negative (runningTotal lib m positions i).
Proof.
  induction i as [|i IH]; [reflexivity|]. cbn [runningTotal].
  apply toFixed2_not_negative, add_not_negative;
    [exact IH|apply increment_not_negative].
Qed.

Section Turns.
Variable m M : Measure.
Variable positions : list Cartesian3.t.
Hypothesis same_distance :
  forall a b, getDistance lib M a b = getDistance lib m a b.
Hypothesis same_units : _units M = _units m.
Hypothesis live : _labels_isDestroyed M = false.

Local Abbreviation num := (List.length positions).

Lemma labelTurn_text (i' : nat) (t : Totals) (label : Label) :
  (S i' < num)%nat ->
  nth_error (labels t) (S i') = Some label ->
  distance t = runningTotal lib m positions i' ->
  unitedAxisDis t = axisTotals lib m positions i' ->
  labelTurn lib build M positions num (S i') t
  = Normal
      {| distance := runningTotal lib m positions (S i');
         unitedAxisDis := axisTotals lib m positions (S i');
         labels :=
           update_nth (S i')
             (set_text label (pathText lib build m positions (S i')))
             (labels t) |}.
Proof.
  intros Hi Hlab Hd Hax.
  destruct (nth_error_in_range i' positions) as (a & Ha); [lia|].
  destruct (nth_error_in_range (S i') positions) as (b & Hb); [lia|].
  unfold labelTurn, pathText. cbn [axisTotals runningTotal].
  unfold increment. rewrite live, Hlab, Ha, Hb. cbv zeta.
  rewrite Hd, Hax, same_distance.
  unfold unitedAxis. rewrite same_units.
  destruct (axisTotals lib m positions i') as [[a0 a1] a2].
  reflexivity.
Qed.

Lemma loop_texts (n i : nat) (t : Totals) :
  (1 <= i)%nat -> (i + n = num)%nat ->
  List.length (labels t) = num ->
  distance t = runningTotal lib m positions (i - 1) ->
  unitedAxisDis t = axisTotals lib m positions (i - 1) ->
  exists t',
    for_each (seq i n) (labelTurn lib build M positions num) t = Normal t'
    /\ List.length (labels t') = num
    /\ (forall j, (j < i)%nat ->
                  nth_error (labels t') j = nth_error (labels t) j)
    /\ (forall j label, (i <= j)%nat ->
                        nth_error (labels t) j = Some label ->
                        nth_error (labels t') j
                        = Some (set_text label
                                  (pathText lib build m positions j))).
Proof.
  revert i t. induction n as [|n IH]; intros i t Hi Hn Hl Hd Hax.
  - exists t. cbn. repeat split; [exact Hl|]. intros j label Hj Hlab.
    assert (j < List.length (labels t))%nat
      by (apply nth_error_Some; congruence).
    lia.
  - destruct i as [|i']; [lia|].
    replace (S i' - 1)%nat with i' in * by lia.
    destruct (nth_error_in_range (S i') (labels t)) as (label & Hlab);
      [lia|].
    cbn [seq for_each].
    rewrite (labelTurn_text i' t label) by (assumption || lia).
    cbn [bind].
    set (t1 := {| distance := _; unitedAxisDis := _; labels := _ |}).
    destruct (IH (S (S i')) t1) as (t' & Hloop & Hlen & Hkeep & Htext).
    + lia.
    + lia.
    + subst t1. cbn [labels]. now rewrite update_nth_length.
    + replace (S (S i') - 1)%nat with (S i') by lia. reflexivity.
    + replace (S (S i') - 1)%nat with (S i') by lia. reflexivity.
    + exists t'. split; [exact Hloop|]. split; [exact Hlen|]. split.
      * intros j Hj. rewrite Hkeep by lia. subst t1. cbn [labels].
        apply nth_error_update_nth_other. lia.
      * intros j label' Hj Hlab'.
        destruct (Nat.eq_dec j (S i')) as [->|Hne].
        -- rewrite Hkeep by lia. subst t1. cbn [labels].
           rewrite nth_error_update_nth_same by lia. congruence.
        -- apply Htext; [lia|]. subst t1. cbn [labels].
           rewrite nth_error_update_nth_other by lia. exact Hlab'.
Qed.

Lemma loop_texts_all (l : LabelCollection) :
  List.length l = num ->
  exists t',
    for_each (seq 0 num) (labelTurn lib build M positions num)
             {| distance := 0; unitedAxisDis := (0, 0, 0); labels := l |}
    = Normal t'
    /\ List.length (labels t') = num
    /\ (forall j label, nth_error l j = Some label ->
                        nth_error (labels t') j
                        = Some (set_text label
                                  (pathText lib build m positions j))).
Proof.
  intros Hl. destruct num as [|n] eqn:En.
  - destruct l; [|discriminate]. eexists. split; [reflexivity|].
    split; [reflexivity|]. intros [|j] label H; discriminate.
  - destruct (nth_error_in_range 0 l) as (label & Hlab); [lia|].
    cbn [seq for_each]. unfold labelTurn at 1. cbn [labels].
    rewrite live, Hlab. cbn [bind distance unitedAxisDis].
    rewrite <- En.
    set (t1 := {| distance := _; unitedAxisDis := _; labels := _ |}).
    assert (List.length (labels t1) = num) as Hl1.
    { subst t1. cbn [labels]. rewrite update_nth_length. lia. }
    destruct (loop_texts n 1 t1) as (t' & Hloop & Hlen & Hkeep & Htext);
      try reflexivity; try lia.
    exists t'. split; [exact Hloop|]. split; [exact Hlen|].
    intros [|j] label' Hlab'.
    + rewrite Hkeep by lia. subst t1. cbn [labels].
      rewrite nth_error_update_nth_same by lia.
      rewrite Hlab in Hlab'. injection Hlab' as <-. reflexivity.
    + apply Htext; [lia|]. subst t1. cbn [labels].
      rewrite nth_error_update_nth_other by lia. exact Hlab'.
Qed.

End Turns.

Lemma distance_update_texts (m : Measure) (positions : list Cartesian3.t) :
  _labels_isDestroyed m = false ->
  exists m',
    DistanceMeasure_updateLabelFunc lib build m positions = Normal m'
    /\ List.length (_labels m') = List.length positions
    /\ forall j p,
        nth_error positions j = Some p ->
        nth_error (_labels m') j
        = Some {| position := p;
                  labelStyle := _labelStyle m;
                  text := pathText lib build m positions j |}.
Proof.
  intros Hlive.
  unfold DistanceMeasure_updateLabelFunc, LabelCollection_removeAll.
  rewrite Hlive. cbn [bind].
  rewrite fresh_labels by exact Hlive.
  cbn [bind _labels set_labels _labelStyle app].
  rewrite set_labels_twice.
  set (M := set_labels _ m).
  unfold DistanceMeasure_updateLabelTexts. cbv zeta.
  destruct (loop_texts_all m M positions (fun a b => eq_refl) eq_refl
              Hlive (_labels M)) as (t' & Hloop & Hlen & Htext).
  { subst M. cbn [_labels set_labels]. now rewrite length_map. }
  rewrite Hloop. cbn [bind].
  eexists. split; [reflexivity|]. cbn [_labels set_labels].
  split; [exact Hlen|]. intros j p Hp.
  rewrite (Htext j {| position := p; labelStyle := _labelStyle m;
                      text := NoText |}); [reflexivity|].
  subst M. cbn [_labels set_labels]. rewrite nth_error_map, Hp. reflexivity.
Qed.

Lemma distance_class_update (m : Measure) (positions : list Cartesian3.t) :
  distanceClass (class m) = true ->
  _updateLabelFunc lib build m positions
  = DistanceMeasure_updateLabelFunc lib build m positions.
Proof.
  intros Hc. unfold _updateLabelFunc.
  destruct (class m); try discriminate; reflexivity.
Qed.

(** The total and the increment a text of a path shows. *)
Lemma pathText_shows (m : Measure) (positions : list Cartesian3.t) (j : nat)
  (isLast : bool) (d unitedDistance height unitedZ : number)
  (shown : option (number * number)) :
  pathText lib build m positions j
  = DistanceText isLast d unitedDistance height unitedZ shown ->
  d = runningTotal lib m positions j
  /\ match shown with
     | Some (newDis, _) => newDis = increment lib m positions j
     | None => True
     end.
Proof.
  destruct j as [|j']; [discriminate|]. unfold pathText.
  generalize (runningTotal lib m positions (S j')).
  generalize (increment lib m positions (S j')).
  intros newDis total.
  destruct (nth_error positions j'), (nth_error positions (S j'));
    try discriminate.
  cbv zeta. generalize (convertLength lib newDis (_units m)).
  generalize (convertLength lib total (_units m)).
  generalize (shownHeight lib build (getCart3AxisDistance t t0) t t0).
  generalize (snd (axisTotals lib m positions (S j'))).
  intros z h ct cn. destruct (1 <? S j')%nat; intros [= _ <- _ _ _ <-];
    split; auto.
Qed.


(** X5.  No label of a distance session shows a negative total or a
    negative increment. *)
Theorem shown_distances_not_negative (m m' : Measure)
  (positions : list Cartesian3.t) (label : Label) (isLast : bool)
  (d unitedDistance height unitedZ : number)
  (shown : option (number * number)) :
  distanceClass (class m) = true ->
  _updateLabelFunc lib build m positions = Normal m' ->
  In label (_labels m') ->
  text label = DistanceText isLast d unitedDistance height unitedZ shown ->
  (d <? 0) = false
  /\ match shown with
     | Some (newDis, _) => (newDis <? 0) = false
     | None => True
     end.
Proof.
  intros Hc Hup Hin Htext.
  destruct (_labels_isDestroyed m) eqn:Hlive.
  { rewrite (update_on_destroyed_labels lib build m positions Hc Hlive)
      in Hup. discriminate. }
  rewrite (distance_class_update m positions Hc) in Hup.
  destruct (distance_update_texts m positions Hlive) as (m2 & Hm & Hl & Ht).
  rewrite Hup in Hm. injection Hm as <-.
  apply In_nth_error in Hin as (j & Hj).
  destruct (nth_error_in_range j positions) as (p & Hp).
  { rewrite <- Hl. apply nth_error_Some. congruence. }
  rewrite (Ht j p Hp) in Hj. injection Hj as <-. cbn [text] in Htext.
  apply pathText_shows in Htext as [-> Hshown].
  split; [apply not_negative_ltb, runningTotal_not_negative|].
  destruct shown as [[newDis united]|]; [|exact I].
  rewrite Hshown. apply not_negative_ltb, increment_not_negative.
Qed.

End DistanceLabels.

(** ** Areas *)

Section Areas.
Variable lib : Lib.
Variable build : Build.

(** X11.  On a live label collection, with 3 points or more, each with
    a cartographic position and none at a NaN longitude or latitude, the
    update of an [AreaMeasure] session leaves exactly one label: at the
    mean of the vertices, moved 100 pixels to the left, and showing the
    area turf gives for the closed ring, rounded to two decimals, with its
    conversion to the units of the session, rounded again.  The area
    shown is never negative. *)
Theorem area_label (m : Measure) (positions : list Cartesian3.t)
  (lonlats : list LonLat) :
  class m = AreaMeasure ->
  _labels_isDestroyed m = false ->
  (3 <= List.length positions)%nat ->
  _cartesian2Lonlat m positions = Normal lonlats ->
  forallb comparable lonlats = true ->
  let area2 := toFixed2 (turf_area lib [closedRing lonlats]) in
  _updateLabelFunc lib build m positions
  = Normal
      (set_labels
         [{| position :=
               Cartesian3.mk (mean (map Cartesian3.x positions))
                             (mean (map Cartesian3.y positions))
                             (mean (map Cartesian3.z positions));
             labelStyle :=
               set_pixelOffset (_labelStyle m) (Cartesian2.mk (-100) 0);
             text :=
               AreaText area2 (toFixed2 (convertArea lib area2 (_units m))) |}]
         m)
  /\ (area2 <? 0) = false.
Proof.
  intros Hc Hlive Hlen E Hcmp. cbv zeta. split.
  - unfold _updateLabelFunc. rewrite Hc.
    unfold AreaMeasure_updateLabelFunc, LabelCollection_removeAll.
    rewrite Hlive. cbn [bind].
    destruct (Nat.ltb_spec (List.length positions) 3) as [|_]; [lia|].
    unfold LabelCollection_add. cbn [_labels_isDestroyed set_labels].
    rewrite Hlive. cbn [bind].
    unfold AreaMeasure_updateLabelTexts, LabelCollection_get.
    cbn [_labels_isDestroyed set_labels]. rewrite Hlive. cbn [bind].
    unfold getArea. cbn [class set_labels]. rewrite Hc.
    match goal with
    | |- context [AreaMeasure_getArea lib ?x positions] =>
        change (AreaMeasure_getArea lib x positions)
          with (AreaMeasure_getArea lib m positions)
    end.
    rewrite (getArea_closes_ring lib m positions lonlats Hlen E Hcmp).
    reflexivity.
  - apply not_negative_ltb, toFixed2_not_negative, not_minus_not_negative,
      turf_area_not_minus.
Qed.

Lemma abs_half_not_negative (x : number) : not_negative (Math_abs x / 2).
Proof.
  unfold not_negative, Math_abs. rewrite div_spec, abs_spec.
  change (Prim2SF 2) with (S754_finite false 4503599627370496 (-51)).
  unfold SF64div, SFdiv.
  destruct (Prim2SF x) as [s|s| |s m e]; try reflexivity.
  cbn [SFabs xorb].
  destruct (SFdiv_core_binary _ _ _ _ _ _) as [[mz ez] lz].
  apply SFnot_minus_not_negative, binary_round_aux_plus.
Qed.

Lemma worldPositionsArea_not_negative (positions : list Cartesian3.t) :
  not_negative (_getWorldPositionsArea lib positions).
Proof.
  unfold _getWorldPositionsArea.
  destruct (walk lib positions [0] [0]) as [x y].
  apply abs_half_not_negative.
Qed.

(** X13.  The area of a ring of picked points is never negative, and is 0
    for a ring of no point or one point; the surface area, a sum of such
    areas, is never negative either. *)
Theorem surface_area_not_negative (m : Measure)
  (screen : list Cartesian2.t) (world : list Cartesian3.t) (p : Cartesian3.t) :
  (_getWorldPositionsArea lib world <? 0) = false
  /\ _getWorldPositionsArea lib [] = 0
  /\ _getWorldPositionsArea lib [p] = 0
  /\ (calculateDetailSurfaceArea lib m screen <? 0) = false
  /\ match _calculateSurfaceArea lib m screen with
     | Normal a => (a <? 0) = false
     | Throw _ => True
     end.
Proof.
  split; [apply not_negative_ltb, worldPositionsArea_not_negative|].
  split; [reflexivity|]. split; [reflexivity|].
  split; [apply not_negative_ltb, worldPositionsArea_not_negative|].
  unfold _calculateSurfaceArea. cbv zeta.
  destruct (_Cartesian2turfPolygon screen) as [mainPoly|e]; cbn [bind];
    [|exact I].
  apply not_negative_ltb, not_minus_not_negative.
  apply (sum_not_minus
           (fun element =>
              calculateDetailSurfaceArea lib m (_intersect lib mainPoly element)));
    [exact zero_not_minus|].
  intros element _. apply worldPositionsArea_not_negative.
Qed.

(** X15.  [getArea] of [AreaSurfaceMeasure] called on fewer than 3 points
    throws: with no point the first position cannot be read, with one or
    two the ring has fewer than 4 positions and turf's [polygon] rejects
    it. *)
Theorem surface_getArea_few_positions (m : Measure)
  (positions : list Cartesian3.t) :
  class m = AreaSurfaceMeasure ->
  (List.length positions < 3)%nat ->
  throws (getArea lib m positions).
Proof.
  intros Hc Hlen. unfold getArea. rewrite Hc.
  unfold AreaSurfaceMeasure_getArea, _calculateSurfaceArea. cbv zeta.
  destruct positions as [|p [|q [|r rest]]];
    try (eexists; reflexivity).
  cbn in Hlen. lia.
Qed.

(** X16.  A polygon of 3 screen points or more, none with a NaN coordinate,
    goes to turf and back as the points followed by the first of them. *)
Theorem polygon_round_trip (positions : list Cartesian2.t) :
  (3 <= List.length positions)%nat ->
  forallb comparable
    (map (fun element => (Cartesian2.x element, Cartesian2.y element))
         positions) = true ->
  exists ring,
    _Cartesian2turfPolygon positions = Normal ring
    /\ _turfPloygon2CartesianArr ring = positions ++ firstn 1 positions.
Proof.
  intros Hlen Hcmp. unfold _Cartesian2turfPolygon. cbv zeta.
  destruct positions as [|p0 rest]; [cbn in Hlen; lia|].
  set (f := fun element : Cartesian2.t =>
              (Cartesian2.x element, Cartesian2.y element)) in *.
  cbn [map hd_error].
  assert (map Some ((f p0 :: map f rest) ++ [f p0])
          = map Some (map f (p0 :: rest))
            ++ [hd_error (map f (p0 :: rest))]) as ->
    by (rewrite map_app; reflexivity).
  rewrite polygon_closedRing;
    [|now rewrite length_map|exact Hcmp].
  cbn [bind hd]. eexists. split; [reflexivity|].
  unfold closedRing, _turfPloygon2CartesianArr.
  cbn [map firstn].
  change (f p0 :: map f rest) with (map f (p0 :: rest)).
  change [f p0] with (map f [p0]).
  rewrite <- map_app, map_map.
  rewrite <- (map_id ((p0 :: rest) ++ [p0])) at 2.
  apply map_ext. intros [x y]. reflexivity.
Qed.

End Areas.

(** ** Bounds *)

Section Bounds.

Lemma SFleb_trans (a b c : spec_float) :
  SFleb a b = true -> SFleb b c = true -> SFleb a c = true.
Proof.
  unfold SFleb, SFcompare.
  destruct a as [sa|sa| |sa ma ea]; try destruct sa;
    destruct b as [sb|sb| |sb mb eb]; try destruct sb;
    destruct c as [sc|sc| |sc mc ec]; try destruct sc;
    try reflexivity; try discriminate.
  all: change (Pos.compare_cont Eq ?x ?y) with (Pos.compare x y).
  all: destruct (Z.compare_spec ea eb); destruct (Z.compare_spec eb ec);
    destruct (Z.compare_spec ea ec); try lia; try reflexivity;
    try discriminate.
  all: destruct (Pos.compare_spec ma mb); destruct (Pos.compare_spec mb mc);
    destruct (Pos.compare_spec ma mc); try lia; try reflexivity;
    try discriminate.
Qed.

Lemma SFleb_total (a b : spec_float) :
  a <> S754_nan -> b <> S754_nan ->
  SFltb b a = false -> SFleb a b = true.
Proof.
  unfold SFleb, SFltb. intros Ha Hb.
  assert (SFcompare b a = option_map CompOpp (SFcompare a b)) as ->.
  { unfold SFcompare.
    destruct a as [sa|sa| |sa ma ea]; try destruct sa;
      destruct b as [sb|sb| |sb mb eb]; try destruct sb;
      try reflexivity.
    all: change (Pos.compare_cont Eq ?x ?y) with (Pos.compare x y).
    all: rewrite (Z.compare_antisym ea eb), (Pos.compare_antisym ma mb).
    all: destruct (ea ?= eb)%Z; destruct (ma ?= mb)%positive; reflexivity. }
  destruct (SFcompare a b) as [[| |]|] eqn:E; cbn; try congruence.
  destruct a, b; try congruence; cbn in E; try destruct s; try destruct s0;
    discriminate.
Qed.

Lemma SFltb_leb (a b : spec_float) : SFltb a b = true -> SFleb a b = true.
Proof.
  unfold SFltb, SFleb. destruct (SFcompare a b) as [[| |]|]; congruence.
Qed.

Lemma SFleb_refl (a : spec_float) : a <> S754_nan -> SFleb a a = true.
Proof.
  intros Ha. unfold SFleb, SFcompare.
  destruct a as [s|s| |s m e]; try destruct s; try reflexivity;
    try congruence.
  all: change (Pos.compare_cont Eq ?x ?y) with (Pos.compare x y).
  all: now rewrite Z.compare_refl, Pos.compare_refl.
Qed.

Lemma leb_trans (a b c : number) :
  (a <=? b) = true -> (b <=? c) = true -> (a <=? c) = true.
Proof. rewrite !leb_spec. apply SFleb_trans. Qed.

Lemma min2_below (a b : number) :
  is_nan a = false -> is_nan b = false ->
  is_nan (min2 a b) = false
  /\ (min2 a b <=? a) = true /\ (min2 a b <=? b) = true.
Proof.
  intros Ha Hb. unfold min2. rewrite Ha, Hb. cbn [orb].
  pose proof (is_nan_false a Ha) as Na. pose proof (is_nan_false b Hb) as Nb.
  rewrite !leb_spec.
  destruct (b <? a) eqn:E1; [|destruct (a <? b) eqn:E2];
    rewrite ltb_spec in *.
  - repeat split; [exact Hb|now apply SFltb_leb|now apply SFleb_refl].
  - repeat split; [exact Ha|now apply SFleb_refl|now apply SFltb_leb].
  - destruct (get_sign a).
    + repeat split; [exact Ha|now apply SFleb_refl|now apply SFleb_total].
    + repeat split; [exact Hb|now apply SFleb_total|now apply SFleb_refl].
Qed.

Lemma max2_above (a b : number) :
  is_nan a = false -> is_nan b = false ->
  is_nan (max2 a b) = false
  /\ (a <=? max2 a b) = true /\ (b <=? max2 a b) = true.
Proof.
  intros Ha Hb. unfold max2. rewrite Ha, Hb. cbn [orb].
  pose proof (is_nan_false a Ha) as Na. pose proof (is_nan_false b Hb) as Nb.
  rewrite !leb_spec.
  destruct (a <? b) eqn:E1; [|destruct (b <? a) eqn:E2];
    rewrite ltb_spec in *.
  - repeat split; [exact Hb|now apply SFltb_leb|now apply SFleb_refl].
  - repeat split; [exact Ha|now apply SFleb_refl|now apply SFltb_leb].
  - destruct (get_sign a).
    + repeat split; [exact Hb|now apply SFleb_total|now apply SFleb_refl].
    + repeat split; [exact Ha|now apply SFleb_refl|now apply SFleb_total].
Qed.

Lemma Math_min_below (xs : list number) (acc : number) :
  is_nan acc = false -> (forall x, In x xs -> is_nan x = false) ->
  is_nan (fold_left min2 xs acc) = false
  /\ (fold_left min2 xs acc <=? acc) = true
  /\ (forall x, In x xs -> (fold_left min2 xs acc <=? x) = true).
Proof.
  revert acc. induction xs as [|y xs IH]; intros acc Hacc Hxs; cbn [fold_left].
  - repeat split; [exact Hacc| |intros x []].
    rewrite leb_spec. apply SFleb_refl, is_nan_false, Hacc.
  - destruct (min2_below acc y Hacc (Hxs y (or_introl eq_refl)))
      as (Hn & Hla & Hly).
    destruct (IH (min2 acc y) Hn (fun x Hx => Hxs x (or_intror Hx)))
      as (Hn' & Hl' & Hall).
    repeat split; [exact Hn'|exact (leb_trans _ _ _ Hl' Hla)|].
    intros x [<-|Hx]; [exact (leb_trans _ _ _ Hl' Hly)|now apply Hall].
Qed.

Lemma Math_max_above (xs : list number) (acc : number) :
  is_nan acc = false -> (forall x, In x xs -> is_nan x = false) ->
  is_nan (fold_left max2 xs acc) = false
  /\ (acc <=? fold_left max2 xs acc) = true
  /\ (forall x, In x xs -> (x <=? fold_left max2 xs acc) = true).
Proof.
  revert acc. induction xs as [|y xs IH]; intros acc Hacc Hxs; cbn [fold_left].
  - repeat split; [exact Hacc| |intros x []].
    rewrite leb_spec. apply SFleb_refl, is_nan_false, Hacc.
  - destruct (max2_above acc y Hacc (Hxs y (or_introl eq_refl)))
      as (Hn & Hla & Hly).
    destruct (IH (max2 acc y) Hn (fun x Hx => Hxs x (or_intror Hx)))
      as (Hn' & Hl' & Hall).
    repeat split; [exact Hn'|exact (leb_trans _ _ _ Hla Hl')|].
    intros x [<-|Hx]; [exact (leb_trans _ _ _ Hly Hl')|now apply Hall].
Qed.

(** X17.  When no coordinate is NaN, the bounds [left, top, right, bottom]
    of [getBounds] enclose every point: left <= x <= right and
    bottom <= y <= top. *)
Theorem getBounds_encloses (points : list Cartesian2.t) (p : Cartesian2.t) :
  (forall q, In q points ->
             is_nan (Cartesian2.x q) = false
             /\ is_nan (Cartesian2.y q) = false) ->
  In p points ->
  let '(left_, top_, right_, bottom_) := getBounds points in
  (left_ <=? Cartesian2.x p) = true
  /\ (Cartesian2.x p <=? right_) = true
  /\ (bottom_ <=? Cartesian2.y p) = true
  /\ (Cartesian2.y p <=? top_) = true.
Proof.
  intros Hnan Hp. unfold getBounds, Math_min, Math_max. cbv zeta.
  assert (forall x, In x (map Cartesian2.x points) -> is_nan x = false) as Hx.
  { intros x Hin. apply in_map_iff in Hin as (q & <- & Hq).
    now apply Hnan. }
  assert (forall y, In y (map Cartesian2.y points) -> is_nan y = false) as Hy.
  { intros y Hin. apply in_map_iff in Hin as (q & <- & Hq).
    now apply Hnan. }
  repeat split.
  - apply (Math_min_below _ infinity eq_refl Hx). now apply in_map.
  - apply (Math_max_above _ neg_infinity eq_refl Hx). now apply in_map.
  - apply (Math_min_below _ infinity eq_refl Hy). now apply in_map.
  - apply (Math_max_above _ neg_infinity eq_refl Hy). now apply in_map.
Qed.

End Bounds.

(** ** Edges of the engines *)

Section Edges.
Variable lib : Lib.

Lemma square_not_minus (x : number) : not_minus (Math_pow2 x).
Proof.
  unfold not_minus, Math_pow2. rewrite mul_spec. unfold SF64mul, SFmul.
  destruct (Prim2SF x) as [s|s| |s m e]; try destruct s; try reflexivity;
    apply binary_round_aux_plus.
Qed.

Lemma sqrt_not_minus (x : number) : not_minus x -> not_minus (Math_sqrt x).
Proof.
  unfold not_minus, Math_sqrt. rewrite sqrt_spec. unfold SF64sqrt, SFsqrt.
  destruct (Prim2SF x) as [s|s| |s m e]; try destruct s; try reflexivity;
    try discriminate.
  intros _. destruct (SFsqrt_core_binary _ _ _ _) as [[mz ez] lz].
  apply binary_round_aux_plus.
Qed.

Lemma zero_add (x : number) : not_minus x -> 0 + x = x.
Proof.
  unfold not_minus. intros H. apply Prim2SF_inj. rewrite add_spec.
  change (Prim2SF 0) with (S754_zero false).
  destruct (Prim2SF x) as [s|s| |s m e]; try destruct s; cbn in *;
    congruence.
Qed.

Lemma detail_not_minus (viewer : Viewer) (a b : Cartesian2.t) :
  not_minus (_calculateDetailSurfaceLength lib viewer a b).
Proof.
  unfold _calculateDetailSurfaceLength. cbv zeta.
  destruct (pickCartesian3 viewer a), (pickCartesian3 viewer b);
    try reflexivity.
  apply sqrt_not_minus, add_not_minus;
    [apply square_not_minus|apply not_minus_not_negative, square_not_minus].
Qed.

(** X9.  With [splitNum] 0 nothing is divided and nothing fails: the
    surface distance of a segment is the surface length of its two end
    points. *)
Theorem surface_distance_unsplit (viewer : Viewer)
  (startPoint endPoint : Cartesian2.t) :
  _calculateSurfaceDistance lib viewer 0 startPoint endPoint
  = _calculateDetailSurfaceLength lib viewer endPoint startPoint.
Proof.
  rewrite surfaceDistance_sum. cbv zeta.
  rewrite sampleWindowPoints_eq. cbn [seq map app combine tl fold_left fst snd].
  apply zero_add, detail_not_minus.
Qed.

Lemma worldPositionsArea_not_minus (positions : list Cartesian3.t) :
  not_minus (_getWorldPositionsArea lib positions).
Proof.
  unfold _getWorldPositionsArea.
  destruct (walk lib positions [0] [0]) as [x y].
  unfold not_minus, Math_abs. rewrite div_spec, abs_spec.
  change (Prim2SF 2) with (S754_finite false 4503599627370496 (-51)).
  unfold SF64div, SFdiv.
  destruct (Prim2SF _) as [s|s| |s m e]; try reflexivity.
  cbn [SFabs xorb].
  destruct (SFdiv_core_binary _ _ _ _ _ _) as [[mz ez] lz].
  apply binary_round_aux_plus.
Qed.

(** X12.  The cells of the tessellation that do not meet the polygon are
    skipped: the surface area is the sum, over the cells that turf
    intersects with the polygon, of the area of the picked intersection,
    and it is 0 when no cell meets the polygon. *)
Theorem empty_cells_are_skipped (m : Measure) (positions : list Cartesian2.t) :
  match _Cartesian2turfPolygon positions with
  | Throw e => _calculateSurfaceArea lib m positions = Throw e
  | Normal mainPoly =>
      let bounds := getBounds positions in
      let cells :=
        turf_voronoi lib (turf_randomPoint lib (_splitNum m) bounds) bounds in
      let met :=
        filter (fun element =>
                  match turf_intersect lib mainPoly element with
                  | Some _ => true
                  | None => false
                  end)
               cells in
      _calculateSurfaceArea lib m positions
      = Normal
          (fold_left
             (fun result element =>
                result
                + calculateDetailSurfaceArea lib m
                    (_intersect lib mainPoly element))
             met 0)
      /\ (met = [] -> _calculateSurfaceArea lib m positions = Normal 0)
  end.
Proof.
  unfold _calculateSurfaceArea. cbv zeta.
  destruct (_Cartesian2turfPolygon positions) as [mainPoly|e]; cbn [bind];
    [|reflexivity].
  set (cells := turf_voronoi lib _ _). clearbody cells.
  assert (forall l acc, not_minus acc ->
            fold_left
              (fun result element =>
                 result + calculateDetailSurfaceArea lib m
                            (_intersect lib mainPoly element)) l acc
            = fold_left
                (fun result element =>
                   result + calculateDetailSurfaceArea lib m
                              (_intersect lib mainPoly element))
                (filter (fun element =>
                           match turf_intersect lib mainPoly element with
                           | Some _ => true
                           | None => false
                           end) l) acc) as H.
  { induction l as [|cell l IH]; intros acc Hacc; [reflexivity|].
    cbn [fold_left filter].
    destruct (turf_intersect lib mainPoly cell) as [geometry|] eqn:E.
    - cbn [fold_left]. apply IH.
      apply add_not_minus; [exact Hacc|].
      apply not_minus_not_negative, worldPositionsArea_not_minus.
    - assert (_intersect lib mainPoly cell = []) as ->
        by (unfold _intersect; now rewrite E).
      change (calculateDetailSurfaceArea lib m []) with 0.
      rewrite (add_zero_r _ Hacc). now apply IH. }
  rewrite (H cells 0 zero_not_minus). split; [reflexivity|].
  intros ->. reflexivity.
Qed.

Lemma min2_nan (a b : number) :
  is_nan a || is_nan b = true -> min2 a b = nan.
Proof. intros H. unfold min2. now rewrite H. Qed.

Lemma max2_nan (a b : number) :
  is_nan a || is_nan b = true -> max2 a b = nan.
Proof. intros H. unfold max2. now rewrite H. Qed.

Lemma fold_nan (f : number -> number -> number) (xs : list number)
  (acc : number) :
  (forall a b, is_nan a || is_nan b = true -> f a b = nan) ->
  is_nan acc = true \/ (exists x, In x xs /\ is_nan x = true) ->
  fold_left f xs acc = nan.
Proof.
  intros Hf. revert acc.
  induction xs as [|y xs IH]; intros acc [Hacc|(x & Hx & Hn)]; cbn [fold_left].
  - apply Prim2SF_inj. unfold Prim2SF at 1. now rewrite Hacc.
  - destruct Hx.
  - apply IH. left. rewrite Hf by (now rewrite Hacc). reflexivity.
  - destruct Hx as [<-|Hx].
    + apply IH. left. rewrite Hf by (rewrite Hn; apply orb_true_r).
      reflexivity.
    + apply IH. right. now exists x.
Qed.

(** X18.  A NaN coordinate spoils the bounds: when the x of some point is
    NaN, so are [left] and [right]; when the y of some point is NaN, so are
    [top] and [bottom]. *)
Theorem getBounds_of_NaN (points : list Cartesian2.t) (p : Cartesian2.t) :
  In p points ->
  let '(left_, top_, right_, bottom_) := getBounds points in
  (is_nan (Cartesian2.x p) = true -> left_ = nan /\ right_ = nan)
  /\ (is_nan (Cartesian2.y p) = true -> top_ = nan /\ bottom_ = nan).
Proof.
  intros Hp. unfold getBounds, Math_min, Math_max. cbv zeta.
  split; intros Hn; split.
  - apply (fold_nan min2 _ _ min2_nan). right.
    exists (Cartesian2.x p). split; [now apply in_map|exact Hn].
  - apply (fold_nan max2 _ _ max2_nan). right.
    exists (Cartesian2.x p). split; [now apply in_map|exact Hn].
  - apply (fold_nan max2 _ _ max2_nan). right.
    exists (Cartesian2.y p). split; [now apply in_map|exact Hn].
  - apply (fold_nan min2 _ _ min2_nan). right.
    exists (Cartesian2.y p). split; [now apply in_map|exact Hn].
Qed.

End Edges.

Lemma getBounds_of_NaN_witness :
  In (Cartesian2.mk nan 0) [Cartesian2.mk 1 2; Cartesian2.mk nan 0]
  /\ fst (fst (fst (getBounds [Cartesian2.mk 1 2; Cartesian2.mk nan 0])))
     = nan.
Proof.
  assert (In (Cartesian2.mk nan 0) [Cartesian2.mk 1 2; Cartesian2.mk nan 0])
    as H by (right; left; reflexivity).
  split; [exact H|].
  pose proof (getBounds_of_NaN _ _ H) as T.
  destruct (getBounds [Cartesian2.mk 1 2; Cartesian2.mk nan 0])
    as [[[left_ top_] right_] bottom_].
  exact (proj1 (proj1 T eq_refl)).
Defined.

(** ** The further properties on the scenes *)

Lemma session_stays_consistent_witness :
  constructor FlatScene.lib DistanceMeasure (Some FlatScene.viewer)
    (FlatScene.options None)
  = Normal (FlatScene.session DistanceMeasure None)
  /\ consistent (FlatScene.session DistanceMeasure None)
       (FlatScene.working DistanceMeasure).
Proof.
  assert (constructor FlatScene.lib DistanceMeasure (Some FlatScene.viewer)
            (FlatScene.options None)
          = Normal (FlatScene.session DistanceMeasure None)) as H0
    by reflexivity.
  split; [exact H0|].
  apply (session_stays_consistent FlatScene.lib Bundle DistanceMeasure
           FlatScene.viewer (FlatScene.options None) _ _ H0).
  apply (reached_points FlatScene.lib Bundle _ FlatScene.triangle
           (after (call (Start []) (FlatScene.session DistanceMeasure None)))).
  - apply reached_call, reached_first.
  - vm_compute. reflexivity.
  - vm_compute. reflexivity.
Defined.

Lemma end_then_start_witness :
  class (FlatScene.working DistanceMeasure) <> BaseMeasure
  /\ exists m1 m2,
      end_ (FlatScene.working DistanceMeasure) = Returned m1
      /\ start [] m1 = Returned m2
      /\ _status m2 = WORKING
      /\ _labels m2 = [].
Proof.
  assert (class (FlatScene.working DistanceMeasure) <> BaseMeasure) as H
    by discriminate.
  assert (_labels_isDestroyed (FlatScene.working DistanceMeasure) = false)
    as Hlive by (vm_compute; reflexivity).
  split; [exact H|].
  destruct (end_then_start (FlatScene.working DistanceMeasure) [] H Hlive)
    as (m1 & m2 & o & rest & He & Hs & Hw & Hl & _).
  exists m1, m2. repeat split; assumption.
Defined.


Lemma destroy_is_final_witness :
  _labels_isDestroyed (FlatScene.working AreaMeasure) = false
  /\ destroyed (run [End_; Start []; Destroy]
                    (after (destroy (FlatScene.working AreaMeasure))))
     = true.
Proof.
  assert (_labels_isDestroyed (FlatScene.working AreaMeasure) = false)
    as Hlive by (vm_compute; reflexivity).
  assert (sceneOwnsLabels (FlatScene.working AreaMeasure) = true)
    as Hown by (vm_compute; reflexivity).
  split; [exact Hlive|].
  exact (destroy_is_final (FlatScene.working AreaMeasure) _ Hlive Hown).
Defined.


Lemma shown_distances_not_negative_witness :
  distanceClass (class (FlatScene.session DistanceMeasure None)) = true
  /\ In {| position := Cartesian3.mk 3 4 0;
           labelStyle := DefaultOptions_labelStyle;
           text := DistanceText true 7 7 0 0 (Some (4, 4)) |}
        (_labels (FlatScene.working DistanceMeasure))
  /\ (7 <? 0) = false.
Proof.
  assert (In {| position := Cartesian3.mk 3 4 0;
                labelStyle := DefaultOptions_labelStyle;
                text := DistanceText true 7 7 0 0 (Some (4, 4)) |}
             (_labels (FlatScene.working DistanceMeasure))) as Hin.
  { apply (nth_error_In _ 2). vm_compute. reflexivity. }
  assert (_updateLabelFunc FlatScene.lib Bundle
            (after (start [] (FlatScene.session DistanceMeasure None)))
            FlatScene.triangle
          = Normal (FlatScene.working DistanceMeasure)) as Hup
    by (vm_compute; reflexivity).
  assert (distanceClass
            (class (after (start [] (FlatScene.session DistanceMeasure None))))
          = true) as Hc by (vm_compute; reflexivity).
  split; [reflexivity|]. split; [exact Hin|].
  exact (proj1 (shown_distances_not_negative FlatScene.lib Bundle
                  (after (start [] (FlatScene.session DistanceMeasure None)))
                  (FlatScene.working DistanceMeasure) FlatScene.triangle
                  {| position := Cartesian3.mk 3 4 0;
                     labelStyle := DefaultOptions_labelStyle;
                     text := DistanceText true 7 7 0 0 (Some (4, 4)) |}
                  true 7 7 0 0 (Some (4, 4)) Hc Hup Hin eq_refl)).
Defined.

Lemma area_label_witness :
  (3 <= List.length DegreeScene.triangle)%nat
  /\ exists label,
      _updateLabelFunc DegreeScene.lib Bundle DegreeScene.session
        DegreeScene.triangle
      = Normal (set_labels [label] DegreeScene.session)
      /\ text label = AreaText 6195699951.04 6195699951.04.
Proof.
  assert (3 <= List.length DegreeScene.triangle)%nat as H by (cbn; lia).
  split; [exact H|].
  eexists. split.
  - exact (proj1 (area_label DegreeScene.lib Bundle DegreeScene.session
                    DegreeScene.triangle DegreeScene.lonlats
                    eq_refl eq_refl H eq_refl eq_refl)).
  - vm_compute. reflexivity.
Defined.

Lemma surface_getArea_few_positions_witness :
  (List.length FlatScene.edge < 3)%nat
  /\ throws (getArea FlatScene.lib (FlatScene.session AreaSurfaceMeasure None)
               FlatScene.edge).
Proof.
  assert (List.length FlatScene.edge < 3)%nat as H by (cbn; lia).
  split; [exact H|].
  exact (surface_getArea_few_positions FlatScene.lib
           (FlatScene.session AreaSurfaceMeasure None) FlatScene.edge
           eq_refl H).
Defined.

Lemma polygon_round_trip_witness :
  (3 <= List.length screenTriangle)%nat
  /\ exists ring,
      _Cartesian2turfPolygon screenTriangle = Normal ring
      /\ _turfPloygon2CartesianArr ring
         = screenTriangle ++ firstn 1 screenTriangle.
Proof.
  assert (3 <= List.length screenTriangle)%nat as H by (cbn; lia).
  split; [exact H|].
  exact (polygon_round_trip screenTriangle H eq_refl).
Defined.

Lemma getBounds_encloses_witness :
  In (Cartesian2.mk 3 0) screenTriangle
  /\ let '(left_, top_, right_, bottom_) := getBounds screenTriangle in
     (left_ <=? 3) = true /\ (3 <=? right_) = true
     /\ (bottom_ <=? 0) = true /\ (0 <=? top_) = true.
Proof.
  assert (In (Cartesian2.mk 3 0) screenTriangle) as H
    by (right; left; reflexivity).
  split; [exact H|].
  refine (getBounds_encloses screenTriangle (Cartesian2.mk 3 0) _ H).
  intros q [<-|[<-|[<-|[]]]]; split; reflexivity.
Defined.
